(** * Token authorizer of the coffee-shop backend

    A shallow embedding of [backend/src/auth/auth.py]: header extraction,
    key selection against the fetched key set, token decoding, permission
    check and the [requires_auth] wrapper, with the properties of the
    specification stated over it. *)

From Stdlib Require Import ZArith List Ascii String Bool Lia.
From stdpp Require Import gmap strings list fin_maps.

Local Open Scope string_scope.
Local Open Scope list_scope.

(** ** Python values *)

Module Py.

(** The identity of an object ([id(x)] in CPython).  [a is b] compares
    identities, [a == b] compares values. *)
Definition objid := N.

(** The values that [json.loads] and the jose library hand to the code.
    Every heap object carries its identity; [None], [True] and [False]
    are singletons.  A float is kept as its literal: the code never
    computes with one. *)
#[local] Set Warnings "-register-all".
Inductive pyval : Type :=
| PNone
| PBool (b : bool)
| PInt (o : objid) (z : Z)
| PFloat (o : objid) (lit : string)
| PStr (o : objid) (s : string)
| PList (o : objid) (l : list pyval)
| PDict (o : objid) (d : gmap string pyval).
#[local] Set Warnings "register-all".
Arguments PInt o%_N z%_Z.
Arguments PFloat o%_N lit%_string.
Arguments PStr o%_N s%_string.
Arguments PList o%_N l%_list.
Arguments PDict o%_N d.

(** Exceptions of the libraries and of the interpreter that reach the
    code.  All of them are subclasses of [Exception]. *)
Inductive lib_exn : Type :=
| ExpiredSignatureError
| JWTClaimsError
| JWTError
| KeyError (k : string)
| TypeError
| URLError
| HTTPError (code : Z)
| JSONDecodeError
| OtherError (name : string).

Definition identity (v : pyval) : option objid :=
  match v with
  | PNone | PBool _ => None
  | PInt o _ | PFloat o _ | PStr o _ | PList o _ | PDict o _ => Some o
  end.

(** [a is b] *)
Definition py_is (a b : pyval) : bool :=
  match a, b with
  | PNone, PNone => true
  | PBool x, PBool y => Bool.eqb x y
  | _, _ =>
      match identity a, identity b with
      | Some i, Some j => N.eqb i j
      | _, _ => false
      end
  end.

(** [s == v] for a str [s]: a str equals only a str of the same value. *)
Definition str_eq (s : string) (v : pyval) : bool :=
  match v with
  | PStr _ s' => String.eqb s s'
  | _ => false
  end.

(** [needle in hay] for two strs: the substring test. *)
Fixpoint is_prefix (p s : string) : bool :=
  match p, s with
  | EmptyString, _ => true
  | String a p', String b s' => Ascii.eqb a b && is_prefix p' s'
  | String _ _, EmptyString => false
  end.

Fixpoint is_substring (needle hay : string) : bool :=
  is_prefix needle hay ||
  match hay with
  | EmptyString => false
  | String _ hay' => is_substring needle hay'
  end.

(** [k in v] for a str [k]: key membership in a dict, element equality
    in a list, substring in a str, [TypeError] for what is not a
    container. *)
Definition py_contains (k : string) (v : pyval) : lib_exn + bool :=
  match v with
  | PDict _ d => inr (bool_decide (is_Some (d !! k)))
  | PList _ l => inr (existsb (str_eq k) l)
  | PStr _ s => inr (is_substring k s)
  | PNone | PBool _ | PInt _ _ | PFloat _ _ => inl TypeError
  end.

(** [v[k]] for a str [k]: [KeyError] for an absent key of a dict,
    [TypeError] for every other type (a list or a str wants an integer
    index, the others are not subscriptable). *)
Definition py_getitem (v : pyval) (k : string) : lib_exn + pyval :=
  match v with
  | PDict _ d =>
      match d !! k with
      | Some x => inr x
      | None => inl (KeyError k)
      end
  | _ => inl TypeError
  end.

(** What a [for] loop draws from an iterable.  Iterating a dict gives
    its keys and iterating a str its characters: strs in both cases, of
    which only the value is kept. *)
Inductive item : Type :=
| Elem (v : pyval)
| StrItem (s : string).

Definition py_iter (v : pyval) : lib_exn + list item :=
  match v with
  | PList _ l => inr (map Elem l)
  | PDict _ d => inr (map StrItem (elements (dom d)))
  | PStr _ s => inr (map (fun c => StrItem (String c EmptyString)) (list_ascii_of_string s))
  | PNone | PBool _ | PInt _ _ | PFloat _ _ => inl TypeError
  end.

Definition item_getitem (it : item) (k : string) : lib_exn + pyval :=
  match it with
  | Elem v => py_getitem v k
  | StrItem _ => inl TypeError
  end.

End Py.

Import Py.

(** ** Python strs of the request

    A WSGI header value is a str of latin-1 code points, one [ascii] each. *)

(** [c.lower()] on a latin-1 code point: A-Z and the accented capitals
    0xC0-0xDE (the multiplication sign 0xD7 apart) move up by 32. *)
Definition lower_char (c : ascii) : ascii :=
  let n := N_of_ascii c in
  if ((65 <=? n) && (n <=? 90) || (192 <=? n) && (n <=? 222) && negb (n =? 215))%N
  then ascii_of_N (n + 32)
  else c.

(** [s.lower()] *)
Fixpoint lower (s : string) : string :=
  match s with
  | EmptyString => EmptyString
  | String c s' => String (lower_char c) (lower s')
  end.

(** [s.split(sep)] for a separator of one character: every occurrence
    cuts, so two separators in a row leave an empty part between them and
    the empty str splits into one empty part. *)
Fixpoint split (sep : ascii) (s : string) : list string :=
  match s with
  | EmptyString => [EmptyString]
  | String c s' =>
      if Ascii.eqb c sep then EmptyString :: split sep s'
      else match split sep s' with
           | part :: parts => String c part :: parts
           | [] => [String c EmptyString]
           end
  end.

(** ** Exceptions and effects *)

(** [class AuthError(Exception)]: the [error] dict and the [status_code]
    it is built with.  Every other exception comes from a library or from
    the interpreter. *)
Inductive exn : Type :=
| AuthError (error : gmap string string) (status_code : Z)
| Lib (e : lib_exn).

(** What a run does to the outside: a request sent by [urlopen], and the
    call of the decorated handler with the payload it is given. *)
Inductive event : Type :=
| Urlopen (url : string)
| CallHandler (payload : pyval).

Inductive outcome (A : Type) : Type :=
| Ret (a : A)
| Exc (e : exn).
Arguments Ret {A} a.
Arguments Exc {A} e.

(** A computation: the events it performs, in order, and how it ends. *)
Definition M (A : Type) : Type := (list event * outcome A)%type.

Definition ret {A} (a : A) : M A := ([], Ret a).

Definition raise {A} (e : exn) : M A := ([], Exc e).

Definition bind {A B} (m : M A) (k : A -> M B) : M B :=
  match m with
  | (tr, Ret a) => let (tr', r) := k a in (tr ++ tr', r)
  | (tr, Exc e) => (tr, Exc e)
  end.

Definition emit (ev : event) : M unit := ([ev], Ret tt).

(** The result of a library call or of an operator that may raise. *)
Definition lift {A} (r : lib_exn + A) : M A :=
  match r with
  | inl e => raise (Lib e)
  | inr a => ret a
  end.

Definition events {A} (m : M A) : list event := fst m.
Definition result {A} (m : M A) : outcome A := snd m.

Declare Scope py_scope.
Delimit Scope py_scope with py.
Notation "'let*' x := m 'in' k" := (bind m (fun x => k))
  (at level 10, x name, m at level 100, k at level 200) : py_scope.
Notation "m ;;; k" := (bind m (fun _ => k))
  (at level 100, k at level 200, right associativity) : py_scope.
Local Open Scope py_scope.

(** [try: body  except ...: handler]: the first clause that matches the
    exception runs; [None] is for an exception that no clause matches. *)
Definition try_except {A} (body : M A) (handler : exn -> option (M A)) : M A :=
  match body with
  | (tr, Exc e) =>
      match handler e with
      | Some h => let (tr', r) := h in (tr ++ tr', r)
      | None => (tr, Exc e)
      end
  | (tr, Ret a) => (tr, Ret a)
  end.

(** How a statement ends when it does not raise: control goes on to the
    next statement, or the function returns. *)
Inductive completion : Type :=
| Normal
| Return (v : pyval).

(** [s1; s2] *)
Definition seq (s1 s2 : M completion) : M completion :=
  let* c := s1 in
  match c with
  | Normal => s2
  | Return v => ret (Return v)
  end.

(** The call of a function whose body is [s]: a body that runs off its
    end returns [None]. *)
Definition call (s : M completion) : M pyval :=
  let* c := s in
  match c with
  | Normal => ret PNone
  | Return v => ret v
  end.

(** ** The world around the code *)

(** The response object of [urlopen]; [read] gives its body. *)
Record response : Type := { read : lib_exn + string }.

(** The Flask request of the current context and the library functions
    the module calls. *)
Record Env : Type := {
  request_headers : list (string * string);
  jwt_get_unverified_header : string -> lib_exn + pyval;
  urlopen : string -> lib_exn + response;
  json_loads : string -> lib_exn + pyval;
  jwt_decode : string -> gmap string pyval -> list string -> string -> string
               -> lib_exn + pyval
}.

(** [request.headers.get(name)]: the first header of that name, names
    compared without regard to case. *)
Definition headers_get (hs : list (string * string)) (name : string) : option string :=
  snd <$> List.find (fun kv => String.eqb (lower (fst kv)) (lower name)) hs.

Definition do_urlopen (env : Env) (url : string) : M response :=
  emit (Urlopen url) ;;; lift (urlopen env url).

(** ** auth.py *)

Definition AUTH0_DOMAIN : string := "ask-auth.us.auth0.com".
Definition ALGORITHMS : list string := ["RS256"].
Definition API_AUDIENCE : string := "coffee_shop".

Definition get_token_auth_header (env : Env) : M string :=
  match headers_get (request_headers env) "Authorization" with
  | None =>
      raise (AuthError {[ "message" := "Authorization header is missing.";
                          "description" := "Expected authorization header." ]} 401)
  | Some auth =>
      let head_parts := split " " auth in
      if negb (length head_parts =? 2)%nat then
        raise (AuthError {[ "error" := "Invalid authorization header.";
                            "description" := "Expected header must has two parts." ]} 401)
      else if negb (String.eqb (lower (nth 0 head_parts "")) "bearer") then
        raise (AuthError {[ "error" := "Invalid authorization header.";
                            "description" := "Authorization header must has a bearer." ]} 401)
      else ret (nth 1 head_parts "")
  end.

Definition check_permissions (permission : string) (payload : pyval) : M pyval :=
  let* present := lift (py_contains "permissions" payload) in
  if negb present then
    raise (AuthError {[ "error" := "Invalid permission";
                        "description" := "Permissions is not included in the payload" ]} 400)
  else
    let* permissions := lift (py_getitem payload "permissions") in
    let* granted := lift (py_contains permission permissions) in
    if negb granted then
      raise (AuthError {[ "error" := "Invalid permission";
                          "description" := "Permission is not found in the payload" ]} 403)
    else ret (PBool true).

(** The body of the loop over the key set:
    [if unverified_header['kid'] is key['kid']: jwts_key = {...}]. *)
Definition select_step (unverified_header : pyval) (key : item)
    (jwts_key : gmap string pyval) : M (gmap string pyval) :=
  let* hkid := lift (py_getitem unverified_header "kid") in
  let* kkid := lift (item_getitem key "kid") in
  if py_is hkid kkid then
    let* kid := lift (item_getitem key "kid") in
    let* kty := lift (item_getitem key "kty") in
    let* use := lift (item_getitem key "use") in
    let* n := lift (item_getitem key "n") in
    let* e := lift (item_getitem key "e") in
    ret ({[ "kid" := kid; "kty" := kty; "use" := use; "n" := n; "e" := e ]}
           : gmap string pyval)
  else ret jwts_key.

(** [for key in ...: ...], started with the [jwts_key] built so far. *)
Fixpoint select_key (unverified_header : pyval) (keys : list item)
    (jwts_key : gmap string pyval) : M (gmap string pyval) :=
  match keys with
  | [] => ret jwts_key
  | key :: rest =>
      let* jwts_key' := select_step unverified_header key jwts_key in
      select_key unverified_header rest jwts_key'
  end.

(** [if jwts_key:] a dict is true when it is not empty. *)
Definition truthy (d : gmap string pyval) : bool := negb (bool_decide (d = ∅)).

(** The [try] statement of [verify_decode_jwt] with its three [except]
    clauses, tried in the order they are written. *)
Definition decode_try (env : Env) (token : string) (jwts_key : gmap string pyval)
    : M completion :=
  try_except
    (let* decoded_payload :=
       lift (jwt_decode env token jwts_key ALGORITHMS API_AUDIENCE
               ("https://" ++ AUTH0_DOMAIN ++ "/")) in
     ret (Return decoded_payload))
    (fun e =>
       match e with
       | Lib ExpiredSignatureError =>
           Some (raise (AuthError {[ "error" := "Expiered token";
                                     "description" := "Token is expiered" ]} 401))
       | Lib JWTClaimsError =>
           Some (raise (AuthError
                          {[ "error" := "Invalid claims";
                             "description" :=
                               "Please check the claims of the decode function" ]} 401))
       | _ =>
           Some (raise (AuthError
                          {[ "error" := "Invalid header";
                             "description" := "Unable to parse authentication token" ]} 401))
       end).

(** The last statement of the [if jwts_key:] block. *)
Definition decode_final_raise : M completion :=
  raise (AuthError {[ "error" := "Token error during decoding";
                      "description" := "Token is not decoded" ]} 401).

(** The block under [if jwts_key:]. *)
Definition decode_block (env : Env) (token : string) (jwts_key : gmap string pyval)
    : M completion :=
  seq (decode_try env token jwts_key) decode_final_raise.

Definition jwks_url : string := "http://" ++ AUTH0_DOMAIN ++ "/.well-known/jwks.json".

Definition verify_decode_jwt_body (env : Env) (token : string) : M completion :=
  let* unverified_header := lift (jwt_get_unverified_header env token) in
  let* has_kid := lift (py_contains "kid" unverified_header) in
  if negb has_kid then
    raise (AuthError {[ "error" := "Token key is not exist";
                        "description" := "Token lacks valid authentication key" ]} 401)
  else
    let* json_url := do_urlopen env jwks_url in
    let* body := lift (read json_url) in
    let* jwts := lift (json_loads env body) in
    let* keys := lift (py_getitem jwts "keys") in
    let* items := lift (py_iter keys) in
    let* jwts_key := select_key unverified_header items ∅ in
    if truthy jwts_key then decode_block env token jwts_key
    else ret Normal.

Definition verify_decode_jwt (env : Env) (token : string) : M pyval :=
  call (verify_decode_jwt_body env token).

(** The call [f(payload, *args, **kwargs)] of the decorated handler. *)
Definition call_handler {A} (f : pyval -> M A) (payload : pyval) : M A :=
  emit (CallHandler payload) ;;; f payload.

(** [requires_auth(permission)(f)]: the wrapper that takes the place of
    the handler [f]. *)
Definition requires_auth {A} (permission : string) (f : pyval -> M A) (env : Env) : M A :=
  let* token := get_token_auth_header env in
  let* payload := verify_decode_jwt env token in
  check_permissions permission payload ;;;
  call_handler f payload.

(** ** Notions the properties are stated with *)

(** The number of occurrences of a character in a str. *)
Fixpoint count_char (c : ascii) (s : string) : nat :=
  match s with
  | EmptyString => 0
  | String a s' => (if Ascii.eqb a c then 1 else 0) + count_char c s'
  end.

(** [n] times the character [c]. *)
Fixpoint replicate_char (n : nat) (c : ascii) : string :=
  match n with
  | O => EmptyString
  | S n' => String c (replicate_char n' c)
  end.

Definition tab : ascii := ascii_of_nat 9.

(** The three steps that fetch the key set, [urlopen], [read] and
    [json.loads], taken together. *)
Definition key_set_fetch (env : Env) : lib_exn + pyval :=
  match urlopen env jwks_url with
  | inl e => inl e
  | inr json_url =>
      match read json_url with
      | inl e => inl e
      | inr body => json_loads env body
      end
  end.

(** The value of a str object, whatever object it is. *)
Definition str_value (v : pyval) : option string :=
  match v with
  | PStr _ s => Some s
  | _ => None
  end.

(** The key identifier an entry of the key set carries, as a value. *)
Definition entry_kid (key : pyval) : option string :=
  match py_getitem key "kid" with
  | inr v => str_value v
  | inl _ => None
  end.

(** The errors the module raises. *)
Definition err_missing_header : exn :=
  AuthError {[ "message" := "Authorization header is missing.";
               "description" := "Expected authorization header." ]} 401.
Definition err_two_parts : exn :=
  AuthError {[ "error" := "Invalid authorization header.";
               "description" := "Expected header must has two parts." ]} 401.
Definition err_no_bearer : exn :=
  AuthError {[ "error" := "Invalid authorization header.";
               "description" := "Authorization header must has a bearer." ]} 401.
Definition err_permissions_absent : exn :=
  AuthError {[ "error" := "Invalid permission";
               "description" := "Permissions is not included in the payload" ]} 400.
Definition err_permission_denied : exn :=
  AuthError {[ "error" := "Invalid permission";
               "description" := "Permission is not found in the payload" ]} 403.
Definition err_no_kid : exn :=
  AuthError {[ "error" := "Token key is not exist";
               "description" := "Token lacks valid authentication key" ]} 401.
Definition err_expired : exn :=
  AuthError {[ "error" := "Expiered token";
               "description" := "Token is expiered" ]} 401.
Definition err_claims : exn :=
  AuthError {[ "error" := "Invalid claims";
               "description" := "Please check the claims of the decode function" ]} 401.
Definition err_invalid_header : exn :=
  AuthError {[ "error" := "Invalid header";
               "description" := "Unable to parse authentication token" ]} 401.
Definition err_not_decoded : exn :=
  AuthError {[ "error" := "Token error during decoding";
               "description" := "Token is not decoded" ]} 401.

(** [status_code] of an exception that is an [AuthError]. *)
Definition status_of (e : exn) : option Z :=
  match e with
  | AuthError _ code => Some code
  | Lib _ => None
  end.

(** The text under the [error] key of an [AuthError]. *)
Definition error_text (e : exn) : option string :=
  match e with
  | AuthError error _ => error !! "error"
  | Lib _ => None
  end.

(** The issuer the token is checked against. *)
Definition issuer : string := "https://" ++ AUTH0_DOMAIN ++ "/".

(** How a call of [verify_decode_jwt] can end: the [try] block returns
    the payload, one of the three [except] clauses raises, or the call
    ends without entering the block under [if jwts_key:]. *)
Definition returns_from_try (env : Env) (token : string) : Prop :=
  exists jwts_key payload,
    decode_try env token jwts_key = ret (Return payload)
    /\ result (verify_decode_jwt env token) = Ret payload.

Definition raises_from_except (env : Env) (token : string) : Prop :=
  result (verify_decode_jwt env token) = Exc err_expired
  \/ result (verify_decode_jwt env token) = Exc err_claims
  \/ result (verify_decode_jwt env token) = Exc err_invalid_header.

Definition ends_outside_block (env : Env) (token : string) : Prop :=
  result (verify_decode_jwt env token) = Ret PNone
  \/ result (verify_decode_jwt env token) = Exc err_no_kid
  \/ exists e, result (verify_decode_jwt env token) = Exc (Lib e).

(** The statements of [verify_decode_jwt] that follow the fetch of the
    key set [jwts]. *)
Definition after_fetch (env : Env) (token : string) (unverified_header jwts : pyval)
    : M completion :=
  let* keys := lift (py_getitem jwts "keys") in
  let* items := lift (py_iter keys) in
  let* jwts_key := select_key unverified_header items ∅ in
  if truthy jwts_key then decode_block env token jwts_key
  else ret Normal.

(** A failed fetch of the key set ends the call with an [AuthError] of
    status 401. *)
Definition fetch_failure_is_unauthorized (env : Env) (token : string) : Prop :=
  forall e, key_set_fetch env = inl e ->
    exists error, result (verify_decode_jwt env token) = Exc (AuthError error 401).

(** Every request for the key set goes to the well-known path of the
    authority domain over HTTPS. *)
Definition fetches_over_https (env : Env) (token : string) : Prop :=
  forall url, Urlopen url ∈ events (verify_decode_jwt env token) ->
    url = ("https://" ++ AUTH0_DOMAIN ++ "/.well-known/jwks.json")%string.

(** An entry of the key set whose [kid] is not the object [hkid]. *)
Definition other_object (hkid : pyval) (key : item) : Prop :=
  exists kkid, item_getitem key "kid" = inr kkid /\ py_is hkid kkid = false.

(** ** Sample worlds *)

(** A token header as [jwt.get_unverified_header] decodes it; the objects
    of the dict take the identities from [o] on. *)
Definition sample_header (o : objid) (kid : string) : pyval :=
  PDict o {[ "alg" := PStr (o + 1) "RS256"; "typ" := PStr (o + 2) "JWT";
             "kid" := PStr (o + 3) kid ]}.
Arguments sample_header o%_N kid%_string.

(** An entry of the key set as [json.loads] decodes it, its [kid] str
    being the object [okid]. *)
Definition sample_jwk (o okid : objid) (kid : string) : pyval :=
  PDict o {[ "kid" := PStr okid kid; "kty" := PStr (o + 1) "RSA";
             "use" := PStr (o + 2) "sig"; "n" := PStr (o + 3) "sXchDaQebHnPiGvyDOAT4saGEUetSyo";
             "e" := PStr (o + 4) "AQAB"; "alg" := PStr (o + 5) "RS256" ]}.
Arguments sample_jwk (o okid)%_N kid%_string.

Definition sample_jwks (keys : list pyval) : pyval :=
  PDict 100 {[ "keys" := PList 101 keys ]}.

Definition sample_payload : pyval :=
  PDict 200 {[ "iss" := PStr 201 "https://ask-auth.us.auth0.com/";
               "aud" := PStr 202 "coffee_shop";
               "exp" := PInt 203 1600000000;
               "permissions" := PList 204 [PStr 205 "get:drinks-detail";
                                           PStr 206 "post:drinks"] ]}.

(** A verifier for the sample token: it accepts the key whose [kid] has
    the value [key1], and then answers [verdict]. *)
Definition sample_decode (verdict : lib_exn + pyval) (token : string)
    (key : gmap string pyval) (algorithms : list string) (audience issuer : string)
    : lib_exn + pyval :=
  match key !! "kid" with
  | Some (PStr _ "key1") => verdict
  | _ => inl JWTError
  end.

Definition sample_env (auth : option string) (header : lib_exn + pyval)
    (fetch : lib_exn + response) (jwks : lib_exn + pyval)
    (verdict : lib_exn + pyval) : Env :=
  {| request_headers :=
       ("Host", "localhost:5000") ::
       match auth with
       | Some v => [("Authorization", v)]
       | None => []
       end;
     jwt_get_unverified_header := fun _ => header;
     urlopen := fun _ => fetch;
     json_loads := fun _ => jwks;
     jwt_decode := sample_decode verdict |}.

Definition ok_response : lib_exn + response := inr {| read := inr "{...}" |}.

(** The token names [key1] and the key set has an entry of that value,
    decoded as an object of its own, as two runs of a JSON decoder give. *)
Definition env_same_value : Env :=
  sample_env (Some "Bearer tok") (inr (sample_header 1 "key1")) ok_response
    (inr (sample_jwks [sample_jwk 10 16 "key2"; sample_jwk 20 26 "key1"]))
    (inr sample_payload).

(** As above, with one str object shared by the header and the entry. *)
Definition env_same_object : Env :=
  sample_env (Some "Bearer tok") (inr (sample_header 1 "key1")) ok_response
    (inr (sample_jwks [sample_jwk 10 16 "key2"; sample_jwk 20 4 "key1"]))
    (inr sample_payload).

(** The token names a key the key set does not have. *)
Definition env_unknown_kid : Env :=
  sample_env (Some "Bearer tok") (inr (sample_header 1 "key9")) ok_response
    (inr (sample_jwks [sample_jwk 10 16 "key2"; sample_jwk 20 26 "key1"]))
    (inr sample_payload).

(** The provider cannot be reached. *)
Definition env_fetch_down : Env :=
  sample_env (Some "Bearer tok") (inr (sample_header 1 "key1")) (inl URLError)
    (inr (sample_jwks [sample_jwk 20 26 "key1"])) (inr sample_payload).

(** The provider answers with a body that is not JSON. *)
Definition env_bad_json : Env :=
  sample_env (Some "Bearer tok") (inr (sample_header 1 "key1")) ok_response
    (inl JSONDecodeError) (inr sample_payload).

(** A request without credentials. *)
Definition env_no_header : Env :=
  sample_env None (inr (sample_header 1 "key1")) ok_response
    (inr (sample_jwks [sample_jwk 20 26 "key1"])) (inr sample_payload).

(** A valid token of [key1] that has expired, against a key set decoded
    on its own. *)
Definition env_expired : Env :=
  sample_env (Some "Bearer tok") (inr (sample_header 1 "key1")) ok_response
    (inr (sample_jwks [sample_jwk 20 26 "key1"])) (inl ExpiredSignatureError).

(** The same expired token where the two [kid] strs are one object. *)
Definition env_expired_same_object : Env :=
  sample_env (Some "Bearer tok") (inr (sample_header 1 "key1")) ok_response
    (inr (sample_jwks [sample_jwk 20 4 "key1"])) (inl ExpiredSignatureError).

Definition env_upper_bearer : Env :=
  sample_env (Some "BEARER abc.def.ghi") (inr (sample_header 1 "key1")) ok_response
    (inr (sample_jwks [sample_jwk 20 26 "key1"])) (inr sample_payload).

(** Scheme and token separated by a tab, and by two spaces. *)
Definition env_tab : Env :=
  sample_env (Some ("Bearer" ++ String tab "tok")%string) (inr (sample_header 1 "key1"))
    ok_response (inr (sample_jwks [sample_jwk 20 26 "key1"])) (inr sample_payload).

Definition env_two_spaces : Env :=
  sample_env (Some "Bearer  tok") (inr (sample_header 1 "key1"))
    ok_response (inr (sample_jwks [sample_jwk 20 26 "key1"])) (inr sample_payload).

(** Claims without a [permissions] field, and claims that grant one
    permission. *)
Definition claims_without_permissions : gmap string pyval :=
  {[ "iss" := PStr 301 "https://ask-auth.us.auth0.com/"; "exp" := PInt 302 1900000000 ]}.

Definition claims_granting (granted : string) : gmap string pyval :=
  {[ "exp" := PInt 302 1900000000; "permissions" := PList 303 [PStr 304 granted] ]}.

(** A handler that answers with the payload it is given. *)
Definition echo_handler (payload : pyval) : M pyval := ret payload.

(** ** api.py: the handler of [AuthError]

    [jsonify] is given a dict of three keys; the body is kept as a record
    of the three values. *)
Record error_body : Type := {
  body_success : bool;
  body_error : Z;
  body_message : string
}.

(** [auth_error(error)], the [errorhandler] of [AuthError]: the body and
    the status of the response.  [error.error['description']] raises
    [KeyError] when the dict has no description. *)
Definition auth_error (error : gmap string string) (status_code : Z)
    : lib_exn + (error_body * Z) :=
  match error !! "description" with
  | Some description =>
      inr ({| body_success := false;
              body_error := status_code;
              body_message := description |}, status_code)
  | None => inl (KeyError "description")
  end.

(** ** Further notions *)

(** The wrapper ends with the exception [e] after the events [tr],
    whatever the handler is. *)
Definition denied (permission : string) (env : Env) (tr : list event) (e : exn) : Prop :=
  forall (A : Type) (f : pyval -> M A),
    requires_auth permission f env = (tr, Exc e).

(** The wrapper calls the handler once, with [payload], after the events
    [tr], and ends as the handler does. *)
Definition authorized (permission : string) (env : Env) (tr : list event)
    (payload : pyval) : Prop :=
  forall (A : Type) (f : pyval -> M A),
    events (requires_auth permission f env)
      = tr ++ CallHandler payload :: events (f payload)
    /\ result (requires_auth permission f env) = result (f payload).

(** The five fields of a key-set entry that are handed to [jwt.decode]. *)
Definition key_fields : list string := ["kid"; "kty"; "use"; "n"; "e"].

(** The errors that the three stages of the wrapper raise. *)
Definition stage_errors : list exn :=
  [err_missing_header; err_two_parts; err_no_bearer;
   err_no_kid; err_expired; err_claims; err_invalid_header;
   err_permissions_absent; err_permission_denied].

(** A handler that raises nothing. *)
Definition handler_returns {A : Type} (f : pyval -> M A) : Prop :=
  forall payload, exists a, result (f payload) = Ret a.

(** ** Further sample worlds *)

(** A header with another scheme. *)
Definition env_token_scheme : Env :=
  sample_env (Some "Token abc") (inr (sample_header 1 "key1"))
    ok_response (inr (sample_jwks [sample_jwk 20 26 "key1"])) (inr sample_payload).

(** A token whose header has no [kid]. *)
Definition env_no_kid : Env :=
  sample_env (Some "Bearer tok")
    (inr (PDict 1 {[ "alg" := PStr 2 "RS256"; "typ" := PStr 3 "JWT" ]}))
    ok_response (inr (sample_jwks [sample_jwk 20 26 "key1"])) (inr sample_payload).

(** A token that is no JWT. *)
Definition env_malformed_token : Env :=
  sample_env (Some "Bearer tok") (inl JWTError)
    ok_response (inr (sample_jwks [sample_jwk 20 26 "key1"])) (inr sample_payload).

(** An entry of the key set without [use], which a JWK may leave out. *)
Definition jwk_without_use (o okid : objid) (kid : string) : pyval :=
  PDict o {[ "kid" := PStr okid kid; "kty" := PStr (o + 1) "RSA";
             "n" := PStr (o + 3) "sXchDaQebHnPiGvyDOAT4saGEUetSyo";
             "e" := PStr (o + 4) "AQAB" ]}.
Arguments jwk_without_use (o okid)%_N kid%_string.

(** An entry of the key set without [kid]. *)
Definition jwk_without_kid (o : objid) : pyval :=
  PDict o {[ "kty" := PStr (o + 1) "RSA"; "use" := PStr (o + 2) "sig";
             "n" := PStr (o + 3) "sXchDaQebHnPiGvyDOAT4saGEUetSyo";
             "e" := PStr (o + 4) "AQAB" ]}.
Arguments jwk_without_kid o%_N.

(** The token's key, shared as one object, with a wrong signature, with
    claims of another audience, and valid. *)
Definition env_bad_signature : Env :=
  sample_env (Some "Bearer tok") (inr (sample_header 1 "key1")) ok_response
    (inr (sample_jwks [sample_jwk 20 4 "key1"])) (inl JWTError).

Definition env_bad_audience : Env :=
  sample_env (Some "Bearer tok") (inr (sample_header 1 "key1")) ok_response
    (inr (sample_jwks [sample_jwk 20 4 "key1"])) (inl JWTClaimsError).

(** Two entries hold the header's [kid] object; the second has another
    modulus. *)
Definition second_jwk : pyval :=
  PDict 30 {[ "kid" := PStr 4 "key1"; "kty" := PStr 31 "RSA";
              "use" := PStr 32 "sig"; "n" := PStr 33 "another-modulus";
              "e" := PStr 34 "AQAB" ]}.

(** A key set whose second entry has no [kid], after an entry that
    holds the header's [kid] object. *)
Definition env_entry_without_kid : Env :=
  sample_env (Some "Bearer tok") (inr (sample_header 1 "key1")) ok_response
    (inr (sample_jwks [sample_jwk 20 4 "key1"; jwk_without_kid 40]))
    (inr sample_payload).

(** A key set whose entry for the token's key has no [use]. *)
Definition env_entry_without_use : Env :=
  sample_env (Some "Bearer tok") (inr (sample_header 1 "key1")) ok_response
    (inr (sample_jwks [jwk_without_use 20 4 "key1"])) (inr sample_payload).

(** The first of the fields read after [kid] that the entry [d] of the
    key set does not have. *)
Definition first_missing (d : gmap string pyval) : option string :=
  List.find (fun field => bool_decide (d !! field = None)) ["kty"; "use"; "n"; "e"].

(** The provider answers with a JSON object that has no [keys]. *)
Definition env_jwks_without_keys : Env :=
  sample_env (Some "Bearer tok") (inr (sample_header 1 "key1")) ok_response
    (inr (PDict 100 {[ "message" := PStr 101 "Not Found" ]})) (inr sample_payload).

(** A present [permissions] value always decides the check: it ends with
    the permission error of status 403 or with success. *)
Definition present_permissions_decide (permission : string) (o : objid)
    (d : gmap string pyval) : Prop :=
  forall v, d !! "permissions" = Some v ->
    result (check_permissions permission (PDict o d)) = Exc err_permission_denied
    \/ result (check_permissions permission (PDict o d)) = Ret (PBool true).

(** Claims whose [permissions] is the JSON [null], and claims whose
    [permissions] is a number. *)
Definition claims_null_permissions : gmap string pyval :=
  {[ "exp" := PInt 302 1900000000; "permissions" := PNone ]}.

Definition claims_number_permissions : gmap string pyval :=
  {[ "exp" := PInt 302 1900000000; "permissions" := PInt 303 7 ]}.

(** * Properties *)

(** ** Strs *)

Section Strs.

Variable sep : ascii.

Lemma split_not_nil (s : string) : split sep s <> [].
Proof.
  destruct s as [|c s]; simpl; [discriminate|].
  destruct (Ascii.eqb c sep); [discriminate|].
  destruct (split sep s); discriminate.
Qed.

(** A str splits into one part more than it has separators. *)
Lemma length_split (s : string) :
  length (split sep s) = S (count_char sep s).
Proof.
  induction s as [|c s IH]; simpl; [reflexivity|].
  destruct (Ascii.eqb c sep); simpl.
  - now rewrite IH.
  - destruct (split sep s) as [|part parts] eqn:E.
    + now apply split_not_nil in E.
    + simpl in *. exact IH.
Qed.

Lemma count_char_app (a b : string) :
  count_char sep (a ++ b)%string = count_char sep a + count_char sep b.
Proof.
  induction a as [|c a IH]; simpl; [reflexivity|].
  rewrite IH. lia.
Qed.

Lemma count_char_replicate (n : nat) :
  count_char sep (replicate_char n sep) = n.
Proof.
  induction n as [|n IH]; simpl; [reflexivity|].
  now rewrite Ascii.eqb_refl, IH.
Qed.

(** A str without separator is its own single part. *)
Lemma split_none (s : string) :
  count_char sep s = 0 -> split sep s = [s].
Proof.
  induction s as [|c s IH]; simpl; [reflexivity|].
  destruct (Ascii.eqb c sep); [discriminate|].
  intros H. now rewrite (IH H).
Qed.

(** The first separator ends the first part. *)
Lemma split_app (a b : string) :
  count_char sep a = 0 ->
  split sep (a ++ String sep b)%string = a :: split sep b.
Proof.
  induction a as [|c a IH]; simpl.
  - now rewrite Ascii.eqb_refl.
  - destruct (Ascii.eqb c sep); [discriminate|].
    intros H. now rewrite (IH H).
Qed.

End Strs.

Lemma split_scheme_token (scheme token : string) :
  count_char " " scheme = 0 -> count_char " " token = 0 ->
  split " " (scheme ++ " " ++ token)%string = [scheme; token].
Proof.
  intros Hs Ht. change (" " ++ token)%string with (String " " token).
  now rewrite split_app, split_none.
Qed.

(** ** Header extraction *)

Section Extraction.

Variable env : Env.

Lemma extract_missing :
  headers_get (request_headers env) "Authorization" = None ->
  get_token_auth_header env = raise err_missing_header.
Proof. intros H. unfold get_token_auth_header. now rewrite H. Qed.

Lemma extract_not_two_parts (auth : string) :
  headers_get (request_headers env) "Authorization" = Some auth ->
  count_char " " auth <> 1 ->
  get_token_auth_header env = raise err_two_parts.
Proof.
  intros H Hn. unfold get_token_auth_header. rewrite H.
  cbv zeta. rewrite length_split.
  destruct (Nat.eqb_spec (S (count_char " " auth)) 2) as [E|E]; [lia|reflexivity].
Qed.

Lemma extract_bearer (scheme token : string) :
  headers_get (request_headers env) "Authorization"
    = Some (scheme ++ " " ++ token)%string ->
  count_char " " scheme = 0 -> count_char " " token = 0 ->
  lower scheme = "bearer" ->
  get_token_auth_header env = ret token.
Proof.
  intros H Hs Ht Hl. unfold get_token_auth_header. rewrite H.
  cbv zeta. rewrite (split_scheme_token _ _ Hs Ht). simpl nth.
  now rewrite Hl.
Qed.

End Extraction.

(** C5: a request without an Authorization header fails in the extraction
    stage with the missing-header error of status 401; the wrapper stops
    there, so that no request is sent to the provider and the handler is
    not called. *)
Theorem missing_header_stops_before_key_resolution
    {A : Type} (env : Env) (permission : string) (f : pyval -> M A) :
  headers_get (request_headers env) "Authorization" = None ->
  get_token_auth_header env = raise err_missing_header
  /\ status_of err_missing_header = Some 401%Z
  /\ result (requires_auth permission f env) = Exc err_missing_header
  /\ events (requires_auth permission f env) = []
  /\ (forall url, Urlopen url ∉ events (requires_auth permission f env)).
Proof.
  intros H. pose proof (extract_missing env H) as E.
  assert (R : requires_auth permission f env = ([], Exc err_missing_header))
    by (unfold requires_auth; now rewrite E).
  split; [exact E|]. split; [reflexivity|].
  rewrite R. split; [reflexivity|]. split; [reflexivity|].
  intros url. apply not_elem_of_nil.
Qed.

Lemma missing_header_stops_before_key_resolution_witness :
  headers_get (request_headers env_no_header) "Authorization" = None
  /\ result (requires_auth "get:drinks-detail" echo_handler env_no_header)
      = Exc err_missing_header
  /\ events (requires_auth "get:drinks-detail" echo_handler env_no_header) = [].
Proof.
  split; [reflexivity|].
  pose proof (missing_header_stops_before_key_resolution
                env_no_header "get:drinks-detail" echo_handler eq_refl) as H.
  split; [exact (proj1 (proj2 (proj2 H))) | exact (proj1 (proj2 (proj2 (proj2 H))))].
Defined.

(** C9: the header is split on the single space only.  When scheme and
    token are separated by a tab or by two or more spaces, extraction
    fails with the malformed-header error of status 401 and no token is
    returned. *)
Theorem split_on_single_space_only (env : Env) (scheme sep token : string) :
  headers_get (request_headers env) "Authorization"
    = Some (scheme ++ sep ++ token)%string ->
  count_char " " scheme = 0 -> count_char " " token = 0 ->
  sep = String tab "" \/ (exists n, 2 <= n /\ sep = replicate_char n " ") ->
  get_token_auth_header env = raise err_two_parts
  /\ status_of err_two_parts = Some 401%Z.
Proof.
  intros H Hs Ht Hsep. split; [|reflexivity].
  apply (extract_not_two_parts env _ H).
  rewrite !count_char_app, Hs, Ht.
  destruct Hsep as [->|(n & Hn & ->)].
  - simpl. lia.
  - rewrite count_char_replicate. lia.
Qed.

Lemma split_on_single_space_only_witness :
  get_token_auth_header env_tab = raise err_two_parts
  /\ get_token_auth_header env_two_spaces = raise err_two_parts.
Proof.
  split.
  - apply (split_on_single_space_only env_tab "Bearer" (String tab "") "tok");
      [reflexivity | reflexivity | reflexivity | left; reflexivity].
  - apply (split_on_single_space_only env_two_spaces "Bearer" "  " "tok");
      [reflexivity | reflexivity | reflexivity |].
    right. exists 2. split; [lia | reflexivity].
Defined.

(** ** Permission check *)

Lemma str_eq_true (k : string) (v : pyval) :
  str_eq k v = true <-> exists i, v = PStr i k.
Proof.
  split.
  - destruct v; simpl; try discriminate.
    intros H. apply String.eqb_eq in H. subst. eauto.
  - intros [i ->]. simpl. apply String.eqb_refl.
Qed.

(** [k in l] for a list [l] holds when some element is a str of value
    [k], whatever object it is. *)
Lemma list_contains_spec (k : string) (l : list pyval) :
  existsb (str_eq k) l = true <-> exists i, PStr i k ∈ l.
Proof.
  rewrite existsb_exists. split.
  - intros (v & Hin & Hv). apply str_eq_true in Hv as [i ->].
    exists i. now apply list_elem_of_In.
  - intros [i Hin]. exists (PStr i k). split.
    + now apply list_elem_of_In.
    + apply str_eq_true. eauto.
Qed.

Section Permissions.

Variables (permission : string) (o : objid) (d : gmap string pyval).

Lemma check_permissions_absent :
  d !! "permissions" = None ->
  check_permissions permission (PDict o d) = raise err_permissions_absent.
Proof.
  intros H. unfold check_permissions. simpl py_contains. rewrite H.
  rewrite bool_decide_eq_false_2 by (intros [x Hx]; discriminate).
  reflexivity.
Qed.

Lemma check_permissions_list (o' : objid) (l : list pyval) :
  d !! "permissions" = Some (PList o' l) ->
  check_permissions permission (PDict o d)
  = if existsb (str_eq permission) l then ret (PBool true)
    else raise err_permission_denied.
Proof.
  intros H. unfold check_permissions. simpl py_contains. rewrite H.
  rewrite bool_decide_eq_true_2 by eauto.
  simpl. rewrite H. simpl.
  now destruct (existsb (str_eq permission) l).
Qed.

End Permissions.

(** C6, as the code has it: claims without a [permissions] field fail
    with status 400; claims whose [permissions] is a list with no str equal
    to the required permission fail with status 403; the two errors
    differ; with the permission in the list the check succeeds. *)
Theorem check_permissions_400_403_or_success
    (permission : string) (o : objid) (d : gmap string pyval) :
  (d !! "permissions" = None ->
   check_permissions permission (PDict o d) = raise err_permissions_absent)
  /\ (forall o' l, d !! "permissions" = Some (PList o' l) ->
       (forall i, PStr i permission ∉ l) ->
       check_permissions permission (PDict o d) = raise err_permission_denied)
  /\ (forall o' l i, d !! "permissions" = Some (PList o' l) ->
       PStr i permission ∈ l ->
       check_permissions permission (PDict o d) = ret (PBool true))
  /\ status_of err_permissions_absent = Some 400%Z
  /\ status_of err_permission_denied = Some 403%Z
  /\ err_permissions_absent <> err_permission_denied.
Proof.
  split; [apply check_permissions_absent|].
  split.
  { intros o' l H Hnot. rewrite (check_permissions_list _ _ _ _ _ H).
    destruct (existsb (str_eq permission) l) eqn:E; [|reflexivity].
    apply list_contains_spec in E as [i Hi]. now destruct (Hnot i). }
  split.
  { intros o' l i H Hin. rewrite (check_permissions_list _ _ _ _ _ H).
    now rewrite (proj2 (list_contains_spec permission l)) by eauto. }
  split; [reflexivity|]. split; [reflexivity|].
  unfold err_permissions_absent, err_permission_denied. intros E.
  inversion E.
Qed.

Lemma check_permissions_400_403_or_success_witness :
  check_permissions "post:drinks" (PDict 300 claims_without_permissions)
    = raise err_permissions_absent
  /\ check_permissions "post:drinks" (PDict 300 (claims_granting "get:drinks-detail"))
    = raise err_permission_denied
  /\ check_permissions "post:drinks" (PDict 300 (claims_granting "post:drinks"))
    = ret (PBool true).
Proof.
  split; [|split].
  - apply (proj1 (check_permissions_400_403_or_success
                    "post:drinks" 300%N claims_without_permissions)).
    reflexivity.
  - apply (proj1 (proj2 (check_permissions_400_403_or_success
                           "post:drinks" 300%N (claims_granting "get:drinks-detail")))
             303%N [PStr 304 "get:drinks-detail"]).
    + reflexivity.
    + intros i Hin. apply list_elem_of_In in Hin. simpl in Hin.
      destruct Hin as [Hin|[]]. discriminate Hin.
  - apply (proj1 (proj2 (proj2 (check_permissions_400_403_or_success
                                  "post:drinks" 300%N (claims_granting "post:drinks"))))
             303%N [PStr 304 "post:drinks"] 304%N).
    + reflexivity.
    + apply list_elem_of_In. simpl. now left.
Defined.

(** C6 as the specification states it fails: a [permissions] value that
    is present need not be a list.  For the JSON [null] and for a number
    the check ends with [TypeError], which is neither the error of status
    403 nor success. *)
Lemma present_permissions_not_always_decided :
  claims_null_permissions !! "permissions" = Some PNone
  /\ check_permissions "post:drinks" (PDict 300 claims_null_permissions)
     = raise (Lib TypeError)
  /\ check_permissions "post:drinks" (PDict 300 claims_number_permissions)
     = raise (Lib TypeError)
  /\ ~ present_permissions_decide "post:drinks" 300%N claims_null_permissions.
Proof.
  split; [reflexivity|]. split; [reflexivity|]. split; [reflexivity|].
  intros C. destruct (C PNone eq_refl) as [E|E]; discriminate E.
Qed.

(** C8: the scheme is compared without regard to case, so that the header
    [BEARER abc.def.ghi] yields the token [abc.def.ghi]; the permission is
    compared exactly, so that a granted [Post:Drinks] does not satisfy the
    required [post:drinks]. *)
Theorem scheme_any_case_permission_exact
    (env : Env) (scheme token permission granted : string) (o o' i : objid) :
  headers_get (request_headers env) "Authorization"
    = Some (scheme ++ " " ++ token)%string ->
  count_char " " scheme = 0 -> count_char " " token = 0 ->
  lower scheme = "bearer" ->
  granted <> permission ->
  get_token_auth_header env = ret token
  /\ check_permissions permission
       (PDict o {[ "permissions" := PList o' [PStr i granted] ]})
     = raise err_permission_denied.
Proof.
  intros H Hs Ht Hl Hne. split.
  - exact (extract_bearer env scheme token H Hs Ht Hl).
  - rewrite (check_permissions_list permission o _ o' [PStr i granted])
      by apply lookup_singleton_eq.
    simpl. apply String.eqb_neq in Hne. rewrite String.eqb_sym in Hne.
    now rewrite Hne.
Qed.

Lemma scheme_any_case_permission_exact_witness :
  get_token_auth_header env_upper_bearer = ret "abc.def.ghi"
  /\ check_permissions "post:drinks"
       (PDict 300 {[ "permissions" := PList 303 [PStr 304 "Post:Drinks"] ]})
     = raise err_permission_denied.
Proof.
  apply (scheme_any_case_permission_exact
           env_upper_bearer "BEARER" "abc.def.ghi" "post:drinks" "Post:Drinks");
    [reflexivity | reflexivity | reflexivity | reflexivity | discriminate].
Defined.

(** ** Decoding *)

Section Decoding.

Variables (env : Env) (token : string).

(** The [try] statement returns the payload or raises one of the errors
    of its three [except] clauses. *)
Lemma decode_try_cases (jwts_key : gmap string pyval) :
  decode_try env token jwts_key
  = match jwt_decode env token jwts_key ALGORITHMS API_AUDIENCE issuer with
    | inr decoded_payload => ret (Return decoded_payload)
    | inl ExpiredSignatureError => raise err_expired
    | inl JWTClaimsError => raise err_claims
    | inl _ => raise err_invalid_header
    end.
Proof.
  unfold decode_try, issuer.
  destruct (jwt_decode env token jwts_key ALGORITHMS API_AUDIENCE _) as [[]|];
    reflexivity.
Qed.

Lemma decode_try_never_normal (jwts_key : gmap string pyval) :
  result (decode_try env token jwts_key) <> Ret Normal.
Proof.
  rewrite decode_try_cases.
  destruct (jwt_decode env token jwts_key ALGORITHMS API_AUDIENCE issuer) as [[]|];
    discriminate.
Qed.

(** The statement after the [try] adds nothing to the block. *)
Lemma decode_block_is_try (jwts_key : gmap string pyval) :
  decode_block env token jwts_key = decode_try env token jwts_key.
Proof.
  unfold decode_block. rewrite decode_try_cases.
  destruct (jwt_decode env token jwts_key ALGORITHMS API_AUDIENCE issuer) as [[]|];
    reflexivity.
Qed.

End Decoding.

(** ** Key selection *)

(** The loop performs no event and raises library exceptions only. *)
Lemma select_step_lift (h : pyval) (key : item) (jwts_key : gmap string pyval) :
  exists r, select_step h key jwts_key = lift r.
Proof.
  unfold select_step.
  destruct (py_getitem h "kid") as [e|hkid]; [now exists (inl e)|].
  destruct (item_getitem key "kid") as [e|kkid]; [now exists (inl e)|].
  cbn [lift bind ret raise].
  destruct (py_is hkid kkid); [|now exists (inr jwts_key)].
  destruct (item_getitem key "kty") as [e|kty]; [now exists (inl e)|].
  destruct (item_getitem key "use") as [e|use]; [now exists (inl e)|].
  destruct (item_getitem key "n") as [e|n]; [now exists (inl e)|].
  destruct (item_getitem key "e") as [e|e']; [now exists (inl e)|].
  simpl. eexists (inr _). reflexivity.
Qed.

Lemma select_key_lift (h : pyval) (keys : list item) (jwts_key : gmap string pyval) :
  exists r, select_key h keys jwts_key = lift r.
Proof.
  revert jwts_key. induction keys as [|key rest IH]; intros jwts_key; simpl.
  - now exists (inr jwts_key).
  - destruct (select_step_lift h key jwts_key) as [[e|k'] ->]; simpl.
    + now exists (inl e).
    + destruct (IH k') as [r ->]. exists r. now destruct r.
Qed.

(** ** Token verification *)

(** Runs the computation as far as its head is known. *)
Ltac run := cbn [lift bind ret raise emit call result events fst snd negb app].

Section Verification.

Variables (env : Env) (token : string).

Lemma verify_result_cases :
  returns_from_try env token \/ raises_from_except env token
  \/ ends_outside_block env token.
Proof.
  unfold returns_from_try, raises_from_except, ends_outside_block.
  unfold verify_decode_jwt, verify_decode_jwt_body, do_urlopen.
  destruct (jwt_get_unverified_header env token) as [e|h];
    [right; right; right; right; exists e; reflexivity|].
  run.
  destruct (py_contains "kid" h) as [e|[]];
    [right; right; right; right; exists e; reflexivity|
    |right; right; right; left; reflexivity].
  run.
  destruct (urlopen env jwks_url) as [e|json_url];
    [right; right; right; right; exists e; reflexivity|].
  run.
  destruct (read json_url) as [e|body];
    [right; right; right; right; exists e; reflexivity|].
  run.
  destruct (json_loads env body) as [e|jwts];
    [right; right; right; right; exists e; reflexivity|].
  run.
  destruct (py_getitem jwts "keys") as [e|keys];
    [right; right; right; right; exists e; reflexivity|].
  run.
  destruct (py_iter keys) as [e|items];
    [right; right; right; right; exists e; reflexivity|].
  run.
  destruct (select_key_lift h items ∅) as [[e|jwts_key] ->];
    [right; right; right; right; exists e; reflexivity|].
  run.
  destruct (truthy jwts_key); [|right; right; left; reflexivity].
  rewrite decode_block_is_try.
  pose proof (decode_try_cases env token jwts_key) as E.
  destruct (jwt_decode env token jwts_key ALGORITHMS API_AUDIENCE issuer)
    as [e|payload].
  - right; left.
    destruct e; rewrite E; cbn; auto.
  - left. exists jwts_key, payload. split; [exact E|]. now rewrite E.
Qed.

(** A call sends at most one request, and only to [jwks_url]. *)
Lemma verify_events :
  events (verify_decode_jwt env token) = []
  \/ events (verify_decode_jwt env token) = [Urlopen jwks_url].
Proof.
  unfold verify_decode_jwt, verify_decode_jwt_body, do_urlopen.
  destruct (jwt_get_unverified_header env token) as [e|h]; [left; reflexivity|].
  run.
  destruct (py_contains "kid" h) as [e|[]]; [left; reflexivity| |left; reflexivity].
  right. run.
  destruct (urlopen env jwks_url) as [e|json_url]; [reflexivity|]. run.
  destruct (read json_url) as [e|body]; [reflexivity|]. run.
  destruct (json_loads env body) as [e|jwts]; [reflexivity|]. run.
  destruct (py_getitem jwts "keys") as [e|keys]; [reflexivity|]. run.
  destruct (py_iter keys) as [e|items]; [reflexivity|].
  run.
  destruct (select_key_lift h items ∅) as [[e|jwts_key] ->]; [reflexivity|].
  run.
  destruct (truthy jwts_key); [|reflexivity].
  rewrite decode_block_is_try, decode_try_cases.
  destruct (jwt_decode env token jwts_key ALGORITHMS API_AUDIENCE issuer)
    as [[]|]; reflexivity.
Qed.

End Verification.

(** C10: the raise of the decoding error that ends the block under
    [if jwts_key:] is never executed.  The [try] statement before it never
    lets control through, so the block is the [try] statement alone; every
    call returns from the [try] block, raises from an [except] clause or
    ends outside the block, and none raises that error. *)
Theorem final_raise_unreachable (env : Env) (token : string) :
  (forall jwts_key, result (decode_try env token jwts_key) <> Ret Normal)
  /\ (forall jwts_key, decode_block env token jwts_key = decode_try env token jwts_key)
  /\ (returns_from_try env token \/ raises_from_except env token
       \/ ends_outside_block env token)
  /\ result (verify_decode_jwt env token) <> Exc err_not_decoded.
Proof.
  split; [apply decode_try_never_normal|].
  split; [apply decode_block_is_try|].
  split; [apply verify_result_cases|].
  intros E.
  assert (T : forall e, Exc e = Exc (A:=pyval) err_not_decoded ->
                        error_text e = Some "Token error during decoding")
    by (intros e [= ->]; reflexivity).
  destruct (verify_result_cases env token)
    as [(k & p & _ & R)|[[R|[R|R]]|[R|[R|[e R]]]]];
    rewrite R in E; try discriminate E; apply T in E; discriminate E.
Qed.

Section AfterHeader.

Variables (env : Env) (token : string) (h : pyval).
Hypothesis Hheader : jwt_get_unverified_header env token = inr h.
Hypothesis Hkid : py_contains "kid" h = inr true.

(** Once the header is known to name a key, the call sends the request
    and goes on with what the fetch gives. *)
Lemma verify_body_after_header :
  verify_decode_jwt_body env token
  = (emit (Urlopen jwks_url) ;;;
     let* jwts := lift (key_set_fetch env) in
     after_fetch env token h jwts).
Proof.
  unfold verify_decode_jwt_body, do_urlopen, key_set_fetch.
  rewrite Hheader. run. rewrite Hkid. run.
  destruct (urlopen env jwks_url) as [e|json_url]; [reflexivity|]. run.
  destruct (read json_url) as [e|body]; [reflexivity|]. run.
  destruct (json_loads env body) as [e|jwts]; [reflexivity|]. run.
  fold (after_fetch env token h jwts).
  now destruct (after_fetch env token h jwts) as [tr []].
Qed.

(** A failed fetch ends the call with the exception of the fetch. *)
Lemma verify_fetch_failed (e : lib_exn) :
  key_set_fetch env = inl e ->
  verify_decode_jwt env token = ([Urlopen jwks_url], Exc (Lib e)).
Proof.
  intros H. unfold verify_decode_jwt.
  rewrite verify_body_after_header, H. reflexivity.
Qed.

End AfterHeader.

(** The wrapper passes on what [verify_decode_jwt] raises, and does not
    call the handler. *)
Lemma requires_auth_verify_raises {A : Type}
    (env : Env) (permission token : string) (f : pyval -> M A)
    (tr : list event) (e : exn) :
  get_token_auth_header env = ret token ->
  verify_decode_jwt env token = (tr, Exc e) ->
  requires_auth permission f env = (tr, Exc e).
Proof.
  intros Ht Hv. unfold requires_auth. rewrite Ht. run. now rewrite Hv.
Qed.

(** C3, as the code has it: when the fetch of the key set fails, by
    [urlopen], by [read] or by [json.loads], the exception of the fetch
    leaves [verify_decode_jwt] and the wrapper as it is.  It is not turned
    into an [AuthError], and the handler is not called. *)
Theorem fetch_failure_propagates {A : Type}
    (env : Env) (permission token : string) (f : pyval -> M A)
    (h : pyval) (e : lib_exn) :
  jwt_get_unverified_header env token = inr h ->
  py_contains "kid" h = inr true ->
  key_set_fetch env = inl e ->
  verify_decode_jwt env token = ([Urlopen jwks_url], Exc (Lib e))
  /\ status_of (Lib e) = None
  /\ (get_token_auth_header env = ret token ->
      requires_auth permission f env = ([Urlopen jwks_url], Exc (Lib e))).
Proof.
  intros Hh Hk He.
  pose proof (verify_fetch_failed env token h Hh Hk e He) as Hv.
  split; [exact Hv|]. split; [reflexivity|].
  intros Ht. exact (requires_auth_verify_raises env permission token f _ _ Ht Hv).
Qed.

Lemma fetch_failure_propagates_witness :
  requires_auth "get:drinks-detail" echo_handler env_fetch_down
    = ([Urlopen jwks_url], Exc (Lib URLError))
  /\ requires_auth "get:drinks-detail" echo_handler env_bad_json
    = ([Urlopen jwks_url], Exc (Lib JSONDecodeError)).
Proof.
  split.
  - apply (fetch_failure_propagates env_fetch_down "get:drinks-detail" "tok"
             echo_handler (sample_header 1 "key1") URLError);
      reflexivity.
  - apply (fetch_failure_propagates env_bad_json "get:drinks-detail" "tok"
             echo_handler (sample_header 1 "key1") JSONDecodeError);
      reflexivity.
Defined.

(** C3 as the specification states it fails: with the provider out of
    reach the call ends with [URLError], which is no [AuthError]. *)
Lemma fetch_failure_not_unauthorized :
  key_set_fetch env_fetch_down = inl URLError
  /\ result (verify_decode_jwt env_fetch_down "tok") = Exc (Lib URLError)
  /\ ~ fetch_failure_is_unauthorized env_fetch_down "tok".
Proof.
  split; [reflexivity|]. split; [reflexivity|].
  intros H. destruct (H URLError eq_refl) as [error E].
  discriminate E.
Qed.

(** Every request for the key set goes to the well-known path
    [/.well-known/jwks.json] of the configured authority domain, and its
    scheme is [http]. *)
Lemma key_set_url (env : Env) (token url : string) :
  Urlopen url ∈ events (verify_decode_jwt env token) ->
  url = ("http://" ++ AUTH0_DOMAIN ++ "/.well-known/jwks.json")%string
  /\ is_prefix "https://" url = false.
Proof.
  intros H.
  destruct (verify_events env token) as [E|E]; rewrite E in H.
  - now apply not_elem_of_nil in H.
  - apply list_elem_of_singleton in H. injection H as ->.
    split; reflexivity.
Qed.

(** C4, where the code departs from it: the call for the sample
    token sends its one request for the key set to the well-known path of
    the authority domain, but with the scheme [http], not over HTTPS. *)
Theorem key_set_not_requested_over_https :
  events (verify_decode_jwt env_same_value "tok")
    = [Urlopen "http://ask-auth.us.auth0.com/.well-known/jwks.json"]
  /\ (exists url, Urlopen url ∈ events (verify_decode_jwt env_same_value "tok")
                  /\ is_prefix "https://" url = false)
  /\ ~ fetches_over_https env_same_value "tok".
Proof.
  assert (H : Urlopen jwks_url ∈ events (verify_decode_jwt env_same_value "tok"))
    by (apply list_elem_of_In; simpl; now left).
  split; [reflexivity|]. split.
  - exists jwks_url. split; [exact H | reflexivity].
  - intros C. specialize (C jwks_url H). discriminate C.
Qed.

(** ** Keys compared by identity *)

(** [is] on two strs looks at the objects, not at their values. *)
Lemma py_is_str (i j : objid) (s t : string) :
  py_is (PStr i s) (PStr j t) = N.eqb i j.
Proof. reflexivity. Qed.

Lemma py_is_identity (a b : pyval) :
  py_is a b = true -> identity a = identity b.
Proof.
  destruct a, b; simpl; try discriminate; try reflexivity;
    intros H; apply N.eqb_eq in H; now subst.
Qed.

Section Selection.

Variables (h hkid : pyval).
Hypothesis Hh : py_getitem h "kid" = inr hkid.

(** An entry whose [kid] is another object leaves [jwts_key] as it is. *)
Lemma select_step_other_object (key : item) (kkid : pyval)
    (jwts_key : gmap string pyval) :
  item_getitem key "kid" = inr kkid ->
  py_is hkid kkid = false ->
  select_step h key jwts_key = ret jwts_key.
Proof.
  intros Hk Hn. unfold select_step. rewrite Hh, Hk. run. now rewrite Hn.
Qed.

(** An entry whose [kid] is the object the header holds is taken, with
    its five fields. *)
Lemma select_step_same_object (key : item) (kkid kty use n e : pyval)
    (jwts_key : gmap string pyval) :
  item_getitem key "kid" = inr kkid ->
  item_getitem key "kty" = inr kty ->
  item_getitem key "use" = inr use ->
  item_getitem key "n" = inr n ->
  item_getitem key "e" = inr e ->
  py_is hkid kkid = true ->
  select_step h key jwts_key
  = ret {[ "kid" := kkid; "kty" := kty; "use" := use; "n" := n; "e" := e ]}.
Proof.
  intros Hk Hty Hu Hn He Hi. unfold select_step.
  rewrite Hh, Hk. run. rewrite Hi, Hty, Hu, Hn, He. reflexivity.
Qed.

Lemma select_key_other_objects (keys : list item) (jwts_key : gmap string pyval) :
  Forall (other_object hkid) keys ->
  select_key h keys jwts_key = ret jwts_key.
Proof.
  induction 1 as [|key rest (kkid & Hk & Hn) _ IH]; simpl; [reflexivity|].
  rewrite (select_step_other_object key kkid jwts_key Hk Hn). run.
  rewrite IH. reflexivity.
Qed.

End Selection.

Section NoKeySelected.

Variables (env : Env) (token : string) (h hkid jwts : pyval).
Variables (o : objid) (keys : list pyval).
Hypothesis Hheader : jwt_get_unverified_header env token = inr h.
Hypothesis Hkid : py_contains "kid" h = inr true.
Hypothesis Hh : py_getitem h "kid" = inr hkid.
Hypothesis Hfetch : key_set_fetch env = inr jwts.
Hypothesis Hkeys : py_getitem jwts "keys" = inr (PList o keys).
Hypothesis Hother : Forall (other_object hkid) (map Elem keys).

(** When no entry of the key set holds the very object of the header's
    [kid], the call runs off the end of the function: it returns [None]
    and raises nothing. *)
Lemma verify_no_key_selected :
  verify_decode_jwt env token = ([Urlopen jwks_url], Ret PNone).
Proof.
  unfold verify_decode_jwt.
  rewrite (verify_body_after_header env token h Hheader Hkid), Hfetch.
  unfold after_fetch. run. rewrite Hkeys. run. simpl py_iter. run.
  rewrite (select_key_other_objects h hkid Hh _ _ Hother). reflexivity.
Qed.

(** The wrapper then fails in [check_permissions], on [None]. *)
Lemma requires_auth_no_key_selected {A : Type} (permission : string)
    (f : pyval -> M A) :
  get_token_auth_header env = ret token ->
  requires_auth permission f env = ([Urlopen jwks_url], Exc (Lib TypeError)).
Proof.
  intros Ht. unfold requires_auth. rewrite Ht. run.
  rewrite verify_no_key_selected. reflexivity.
Qed.

End NoKeySelected.

Section KeySelected.

Variables (env : Env) (token : string) (h jwts keys : pyval).
Variables (items : list item) (jwts_key : gmap string pyval).
Hypothesis Hheader : jwt_get_unverified_header env token = inr h.
Hypothesis Hkid : py_contains "kid" h = inr true.
Hypothesis Hfetch : key_set_fetch env = inr jwts.
Hypothesis Hkeys : py_getitem jwts "keys" = inr keys.
Hypothesis Hitems : py_iter keys = inr items.
Hypothesis Hselect : select_key h items ∅ = ret jwts_key.
Hypothesis Htruthy : truthy jwts_key = true.

(** With a key selected the call ends as the [try] statement does. *)
Lemma verify_key_selected :
  verify_decode_jwt env token
  = (emit (Urlopen jwks_url) ;;; call (decode_try env token jwts_key)).
Proof.
  unfold verify_decode_jwt.
  rewrite (verify_body_after_header env token h Hheader Hkid), Hfetch.
  unfold after_fetch. run. rewrite Hkeys. run. rewrite Hitems. run.
  rewrite Hselect. run. rewrite Htruthy, decode_block_is_try.
  now destruct (decode_try env token jwts_key) as [tr [[]|]].
Qed.

(** An expired token is then answered with the expired-token error, and
    the handler is not called. *)
Lemma verify_expired :
  jwt_decode env token jwts_key ALGORITHMS API_AUDIENCE issuer
    = inl ExpiredSignatureError ->
  verify_decode_jwt env token = ([Urlopen jwks_url], Exc err_expired).
Proof.
  intros H. rewrite verify_key_selected, decode_try_cases, H. reflexivity.
Qed.

Lemma requires_auth_expired {A : Type} (permission : string) (f : pyval -> M A) :
  get_token_auth_header env = ret token ->
  jwt_decode env token jwts_key ALGORITHMS API_AUDIENCE issuer
    = inl ExpiredSignatureError ->
  requires_auth permission f env = ([Urlopen jwks_url], Exc err_expired).
Proof.
  intros Ht H.
  exact (requires_auth_verify_raises env permission token f _ _ Ht (verify_expired H)).
Qed.

End KeySelected.

(** C1, where the code departs from it: the token names [key1] and
    the key set has an entry whose [kid] is the str [key1] too, decoded as
    an object of its own.  The loop compares the two with [is], selects
    nothing, and the call returns [None]; the entry is selected only when
    its [kid] is the very object the header holds. *)
Theorem kid_of_equal_value_not_selected :
  py_getitem (sample_header 1 "key1") "kid" = inr (PStr 4 "key1")
  /\ entry_kid (sample_jwk 20 26 "key1") = Some "key1"
  /\ select_key (sample_header 1 "key1")
       (map Elem [sample_jwk 10 16 "key2"; sample_jwk 20 26 "key1"]) ∅ = ret ∅
  /\ verify_decode_jwt env_same_value "tok" = ([Urlopen jwks_url], Ret PNone)
  /\ verify_decode_jwt env_same_object "tok"
     = ([Urlopen jwks_url], Ret sample_payload).
Proof. repeat split; reflexivity. Qed.

(** C2, where the code departs from it: the token names [key9],
    which no entry of the key set carries.  The call raises nothing and
    returns [None], on which the wrapper fails with a [TypeError] in
    [check_permissions]. *)
Theorem unknown_kid_returns_None :
  Forall (fun key => entry_kid key <> Some "key9")
    [sample_jwk 10 16 "key2"; sample_jwk 20 26 "key1"]
  /\ verify_decode_jwt env_unknown_kid "tok" = ([Urlopen jwks_url], Ret PNone)
  /\ requires_auth "get:drinks-detail" echo_handler env_unknown_kid
     = ([Urlopen jwks_url], Exc (Lib TypeError)).
Proof.
  split; [|split; reflexivity].
  repeat constructor; discriminate.
Qed.

(** C7, where the code departs from it: a valid token of [key1]
    that has expired, against a key set that has [key1], decoded as an
    object of its own.  No key is selected, the token is never decoded,
    and the wrapper ends with a [TypeError] in place of the expired-token
    error; the handler is not called.  With the two [kid] strs one object
    the expired-token error is raised. *)
Theorem expired_token_without_selected_key :
  jwt_decode env_expired "tok"
    {[ "kid" := PStr 26 "key1"; "kty" := PStr 21 "RSA"; "use" := PStr 22 "sig";
       "n" := PStr 23 "sXchDaQebHnPiGvyDOAT4saGEUetSyo"; "e" := PStr 24 "AQAB" ]}
    ALGORITHMS API_AUDIENCE issuer = inl ExpiredSignatureError
  /\ requires_auth "get:drinks-detail" echo_handler env_expired
     = ([Urlopen jwks_url], Exc (Lib TypeError))
  /\ requires_auth "get:drinks-detail" echo_handler env_expired_same_object
     = ([Urlopen jwks_url], Exc err_expired).
Proof. repeat split; reflexivity. Qed.

(** ** The sample worlds meet the general results *)

Example sample_no_key_selected :
  verify_decode_jwt env_same_value "tok" = ([Urlopen jwks_url], Ret PNone).
Proof.
  apply (verify_no_key_selected env_same_value "tok" (sample_header 1 "key1")
           (PStr 4 "key1")
           (sample_jwks [sample_jwk 10 16 "key2"; sample_jwk 20 26 "key1"])
           101%N [sample_jwk 10 16 "key2"; sample_jwk 20 26 "key1"]);
    try reflexivity.
  repeat constructor.
  - exists (PStr 16 "key2"). split; reflexivity.
  - exists (PStr 26 "key1"). split; reflexivity.
Qed.

Example sample_expired_same_object :
  requires_auth "get:drinks-detail" echo_handler env_expired_same_object
  = ([Urlopen jwks_url], Exc err_expired).
Proof.
  apply (requires_auth_expired env_expired_same_object "tok"
           (sample_header 1 "key1") (sample_jwks [sample_jwk 20 4 "key1"])
           (PList 101 [sample_jwk 20 4 "key1"]) [Elem (sample_jwk 20 4 "key1")]
           {[ "kid" := PStr 4 "key1"; "kty" := PStr 21 "RSA"; "use" := PStr 22 "sig";
              "n" := PStr 23 "sXchDaQebHnPiGvyDOAT4saGEUetSyo";
              "e" := PStr 24 "AQAB" ]});
    reflexivity.
Qed.

Example sample_key_set_url :
  is_prefix "https://" jwks_url = false.
Proof.
  apply (key_set_url env_same_value "tok" jwks_url).
  apply list_elem_of_In. simpl. now left.
Qed.

(** * Further properties of the code *)

(** ** Header extraction *)

Lemma split_one_inv (sep : ascii) (s b : string) :
  split sep s = [b] -> s = b /\ count_char sep b = 0.
Proof.
  intros H. pose proof (length_split sep s) as L. rewrite H in L. simpl in L.
  assert (C : count_char sep s = 0) by lia.
  rewrite (split_none sep s C) in H. injection H as <-. now split.
Qed.

Lemma split_two_inv (sep : ascii) (s a b : string) :
  split sep s = [a; b] ->
  s = (a ++ String sep b)%string /\ count_char sep a = 0 /\ count_char sep b = 0.
Proof.
  revert a. induction s as [|c s IH]; intros a; simpl; [discriminate|].
  destruct (Ascii.eqb c sep) eqn:E.
  - apply Ascii.eqb_eq in E. subst c. intros [= <- H].
    apply split_one_inv in H as [-> Hb]. now repeat split.
  - destruct (split sep s) as [|part parts]; [discriminate|].
    intros [= <- ->].
    destruct (IH part eq_refl) as (-> & Ha & Hb).
    repeat split; simpl; try assumption. now rewrite E.
Qed.

(** X1: extraction returns a token exactly when the header value is a
    scheme, one space and the token, neither holding a space, with a
    scheme that reads [bearer] in lower case.  The token is the rest of
    the header as it stands. *)
Theorem extraction_succeeds_iff (env : Env) (token : string) :
  get_token_auth_header env = ret token
  <-> exists scheme,
        headers_get (request_headers env) "Authorization"
          = Some (scheme ++ " " ++ token)%string
        /\ count_char " " scheme = 0 /\ count_char " " token = 0
        /\ lower scheme = "bearer".
Proof.
  split.
  - unfold get_token_auth_header.
    destruct (headers_get (request_headers env) "Authorization") as [auth|];
      [|discriminate].
    cbv zeta.
    destruct (split " " auth) as [|a [|b [|c rest]]] eqn:E; simpl;
      try discriminate.
    destruct (String.eqb (lower a) "bearer") eqn:L; simpl; [|discriminate].
    intros [= <-]. apply String.eqb_eq in L.
    apply split_two_inv in E as (-> & Ha & Hb). now exists a.
  - intros (scheme & H & Hs & Ht & Hl).
    exact (extract_bearer env scheme token H Hs Ht Hl).
Qed.

Lemma extraction_succeeds_iff_witness :
  get_token_auth_header env_upper_bearer = ret "abc.def.ghi"
  /\ exists scheme,
       headers_get (request_headers env_same_value) "Authorization"
         = Some (scheme ++ " " ++ "tok")%string
       /\ count_char " " scheme = 0 /\ count_char " " "tok" = 0
       /\ lower scheme = "bearer".
Proof.
  split.
  - apply (proj2 (extraction_succeeds_iff env_upper_bearer "abc.def.ghi")).
    exists "BEARER". repeat split; reflexivity.
  - apply (proj1 (extraction_succeeds_iff env_same_value "tok")). reflexivity.
Defined.

Lemma extraction_no_event (env : Env) :
  events (get_token_auth_header env) = [].
Proof.
  unfold get_token_auth_header.
  destruct (headers_get (request_headers env) "Authorization") as [auth|];
    [|reflexivity].
  cbv zeta. destruct (negb (length (split " " auth) =? 2))%nat; [reflexivity|].
  now destruct (negb (String.eqb (lower (nth 0 (split " " auth) "")) "bearer")).
Qed.

(** X2: extraction performs no event, and what it raises is one of its
    three errors, each of status 401; it raises no library exception. *)
Theorem extraction_raises_only_401 (env : Env) (e : exn) :
  result (get_token_auth_header env) = Exc e ->
  events (get_token_auth_header env) = []
  /\ (e = err_missing_header \/ e = err_two_parts \/ e = err_no_bearer)
  /\ status_of e = Some 401%Z.
Proof.
  unfold get_token_auth_header.
  destruct (headers_get (request_headers env) "Authorization") as [auth|].
  - cbv zeta. destruct (negb (length (split " " auth) =? 2))%nat.
    + intros [= <-]. repeat split; auto.
    + destruct (negb (String.eqb (lower (nth 0 (split " " auth) "")) "bearer")).
      * intros [= <-]. repeat split; auto.
      * discriminate.
  - intros [= <-]. repeat split; auto.
Qed.

Lemma extraction_raises_only_401_witness :
  events (get_token_auth_header env_token_scheme) = []
  /\ (err_no_bearer = err_missing_header \/ err_no_bearer = err_two_parts
      \/ err_no_bearer = err_no_bearer)
  /\ status_of err_no_bearer = Some 401%Z.
Proof.
  apply (extraction_raises_only_401 env_token_scheme err_no_bearer). reflexivity.
Defined.

(** X3: a header of two parts whose first part does not read [bearer] in
    lower case is refused with the bearer error of status 401. *)
Theorem other_scheme_rejected (env : Env) (scheme token : string) :
  headers_get (request_headers env) "Authorization"
    = Some (scheme ++ " " ++ token)%string ->
  count_char " " scheme = 0 -> count_char " " token = 0 ->
  lower scheme <> "bearer" ->
  get_token_auth_header env = raise err_no_bearer.
Proof.
  intros H Hs Ht Hl. unfold get_token_auth_header. rewrite H.
  cbv zeta. rewrite (split_scheme_token _ _ Hs Ht). simpl nth.
  apply String.eqb_neq in Hl. now rewrite Hl.
Qed.

Lemma other_scheme_rejected_witness :
  get_token_auth_header env_token_scheme = raise err_no_bearer.
Proof.
  apply (other_scheme_rejected env_token_scheme "Token" "abc");
    [reflexivity | reflexivity | reflexivity | discriminate].
Defined.

(** X4: whatever extraction raises ends the wrapper at once: no request
    is sent for the key set and the handler is not called. *)
Theorem extraction_failure_stops_wrapper {A : Type}
    (env : Env) (permission : string) (f : pyval -> M A) (e : exn) :
  result (get_token_auth_header env) = Exc e ->
  requires_auth permission f env = ([], Exc e).
Proof.
  intros H. pose proof (extraction_no_event env) as Ev.
  unfold requires_auth.
  destruct (get_token_auth_header env) as [tr r]. simpl in H, Ev. now subst.
Qed.

Lemma extraction_failure_stops_wrapper_witness :
  requires_auth "post:drinks" echo_handler env_two_spaces = ([], Exc err_two_parts).
Proof.
  apply (extraction_failure_stops_wrapper env_two_spaces "post:drinks" echo_handler).
  reflexivity.
Defined.

(** ** Permission check *)

Lemma is_prefix_spec (p s : string) :
  is_prefix p s = true <-> exists b, s = (p ++ b)%string.
Proof.
  revert s. induction p as [|a p IH]; intros s; simpl.
  - split; [intros _; now exists s | reflexivity].
  - destruct s as [|c s].
    + split; [discriminate | intros [b [=]]].
    + rewrite andb_true_iff, IH. split.
      * intros [E [b ->]]. apply Ascii.eqb_eq in E. subst. now exists b.
      * intros [b [= -> ->]]. split; [apply Ascii.eqb_refl | now exists b].
Qed.

(** [needle in hay] holds when [needle] stands somewhere in [hay]. *)
Lemma is_substring_spec (needle hay : string) :
  is_substring needle hay = true
  <-> exists a b, hay = (a ++ needle ++ b)%string.
Proof.
  induction hay as [|c hay IH]; simpl.
  - rewrite orb_false_r, is_prefix_spec. split.
    + intros [b H]. now exists "", b.
    + intros ([|c a] & b & H); [now exists b | discriminate].
  - rewrite orb_true_iff, is_prefix_spec, IH. split.
    + intros [[b H]|(a & b & ->)].
      * now exists "", b.
      * now exists (String c a), b.
    + intros ([|c' a] & b & H).
      * left. now exists b.
      * right. injection H as -> ->. now exists a, b.
Qed.

Lemma check_permissions_cases (permission : string) (payload : pyval) :
  check_permissions permission payload = ret (PBool true)
  \/ check_permissions permission payload = raise err_permissions_absent
  \/ check_permissions permission payload = raise err_permission_denied
  \/ check_permissions permission payload = raise (Lib TypeError).
Proof.
  unfold check_permissions.
  destruct payload as [| | | |o s|o l|o d]; simpl; auto.
  - destruct (is_substring "permissions" s); simpl; auto.
  - destruct (existsb (str_eq "permissions") l); simpl; auto.
  - destruct (d !! "permissions") as [v|] eqn:E.
    + rewrite bool_decide_eq_true_2 by eauto. simpl.
      destruct v as [| | | |o' s|o' l|o' d']; simpl; auto.
      * destruct (is_substring permission s); simpl; auto.
      * destruct (existsb (str_eq permission) l); simpl; auto.
      * destruct (bool_decide (is_Some (d' !! permission))); simpl; auto.
    + rewrite bool_decide_eq_false_2 by (intros [x Hx]; discriminate).
      simpl. auto.
Qed.

(** X5: the permission check performs no event and has four ends: it
    returns [True], raises one of its two errors, or raises [TypeError]
    on a value that is no container.  The subscript [payload['permissions']]
    never raises [KeyError]. *)
Theorem check_permissions_ends (permission : string) (payload : pyval) :
  events (check_permissions permission payload) = []
  /\ (result (check_permissions permission payload) = Ret (PBool true)
      \/ result (check_permissions permission payload) = Exc err_permissions_absent
      \/ result (check_permissions permission payload) = Exc err_permission_denied
      \/ result (check_permissions permission payload) = Exc (Lib TypeError)).
Proof.
  destruct (check_permissions_cases permission payload) as [H|[H|[H|H]]];
    rewrite H; split; auto.
Qed.

(** X6: granting more never takes a permission away.  When the check
    passes with a list of permissions, it passes with every list that has
    at least the same values, whatever the other claims are. *)
Theorem check_permissions_monotone
    (permission : string) (o o' i i' : objid) (d d' : gmap string pyval)
    (l l' : list pyval) :
  d !! "permissions" = Some (PList i l) ->
  d' !! "permissions" = Some (PList i' l') ->
  (forall s, (exists j, PStr j s ∈ l) -> exists j', PStr j' s ∈ l') ->
  check_permissions permission (PDict o d) = ret (PBool true) ->
  check_permissions permission (PDict o' d') = ret (PBool true).
Proof.
  intros H H' Hsub.
  rewrite (check_permissions_list permission o d i l H).
  rewrite (check_permissions_list permission o' d' i' l' H').
  destruct (existsb (str_eq permission) l) eqn:E; [|discriminate].
  intros _. apply list_contains_spec in E. apply Hsub in E.
  now rewrite (proj2 (list_contains_spec permission l') E).
Qed.

Lemma check_permissions_monotone_witness :
  check_permissions "post:drinks" sample_payload = ret (PBool true).
Proof.
  apply (check_permissions_monotone "post:drinks" 300%N 200%N 303%N 204%N
           (claims_granting "post:drinks") _
           [PStr 304 "post:drinks"]
           [PStr 205 "get:drinks-detail"; PStr 206 "post:drinks"]);
    try reflexivity.
  intros s [j Hin]. apply list_elem_of_In in Hin. simpl in Hin.
  destruct Hin as [[= <- <-]|[]].
  exists 206%N. apply list_elem_of_In. simpl. auto.
Defined.

(** X7: the check looks at the [permissions] entry alone: two payloads
    that agree on it get the same answer, whatever their other claims and
    whichever objects they are. *)
Theorem check_permissions_reads_permissions_only
    (permission : string) (o o' : objid) (d d' : gmap string pyval) :
  d !! "permissions" = d' !! "permissions" ->
  check_permissions permission (PDict o d) = check_permissions permission (PDict o' d').
Proof.
  intros H. unfold check_permissions. simpl py_contains. simpl py_getitem.
  now rewrite H.
Qed.

Lemma check_permissions_reads_permissions_only_witness :
  check_permissions "post:drinks" (PDict 300 (claims_granting "post:drinks"))
  = check_permissions "post:drinks"
      (PDict 7 {[ "permissions" := PList 303 [PStr 304 "post:drinks"] ]}).
Proof.
  apply (check_permissions_reads_permissions_only "post:drinks" 300%N 7%N).
  reflexivity.
Defined.

(** X8: when the [permissions] claim is a str, the check is the substring
    test: it passes exactly when the permission stands somewhere in that
    str, and fails with status 403 otherwise. *)
Theorem check_permissions_str_is_substring
    (permission : string) (o i : objid) (d : gmap string pyval) (s : string) :
  d !! "permissions" = Some (PStr i s) ->
  (check_permissions permission (PDict o d) = ret (PBool true)
   <-> exists a b, s = (a ++ permission ++ b)%string)
  /\ (check_permissions permission (PDict o d) = ret (PBool true)
      \/ check_permissions permission (PDict o d) = raise err_permission_denied).
Proof.
  intros H. rewrite <- is_substring_spec.
  unfold check_permissions. simpl py_contains. rewrite H.
  rewrite bool_decide_eq_true_2 by eauto. simpl. rewrite H. simpl.
  destruct (is_substring permission s); simpl; split; auto; split;
    try reflexivity; discriminate.
Qed.

Lemma check_permissions_str_is_substring_witness :
  check_permissions "get:drinks"
    (PDict 300 {[ "permissions" := PStr 303 "post:drinks get:drinks-detail" ]})
  = ret (PBool true).
Proof.
  destruct (check_permissions_str_is_substring "get:drinks" 300%N 303%N
              {[ "permissions" := PStr 303 "post:drinks get:drinks-detail" ]}
              "post:drinks get:drinks-detail") as [Hiff _]; [reflexivity|].
  apply Hiff. exists "post:drinks ", "-detail". reflexivity.
Defined.

(** ** Token verification *)

Lemma call_after_emit (ev : event) (m : M completion) :
  events (call (emit ev ;;; m)) = ev :: events (call m)
  /\ result (call (emit ev ;;; m)) = result (call m).
Proof. now destruct m as [tr [[]|]]. Qed.

(** X9: a token whose header has no [kid] is refused with the key error
    of status 401 before any request is sent; the wrapper ends there. *)
Theorem token_without_kid_rejected_before_fetch {A : Type}
    (env : Env) (permission token : string) (f : pyval -> M A) (h : pyval) :
  jwt_get_unverified_header env token = inr h ->
  py_contains "kid" h = inr false ->
  verify_decode_jwt env token = ([], Exc err_no_kid)
  /\ status_of err_no_kid = Some 401%Z
  /\ (get_token_auth_header env = ret token ->
      requires_auth permission f env = ([], Exc err_no_kid)).
Proof.
  intros Hh Hk.
  assert (V : verify_decode_jwt env token = ([], Exc err_no_kid)).
  { unfold verify_decode_jwt, verify_decode_jwt_body.
    rewrite Hh. run. rewrite Hk. reflexivity. }
  split; [exact V|]. split; [reflexivity|].
  intros Ht. exact (requires_auth_verify_raises env permission token f _ _ Ht V).
Qed.

Lemma token_without_kid_rejected_before_fetch_witness :
  requires_auth "get:drinks-detail" echo_handler env_no_kid = ([], Exc err_no_kid).
Proof.
  apply (token_without_kid_rejected_before_fetch env_no_kid "get:drinks-detail"
           "tok" echo_handler
           (PDict 1 {[ "alg" := PStr 2 "RS256"; "typ" := PStr 3 "JWT" ]}));
    reflexivity.
Defined.

(** X10: when [jwt.get_unverified_header] raises on the token, the
    exception leaves [verify_decode_jwt] and the wrapper as it is: it is
    not turned into an [AuthError], no request is sent and the handler is
    not called. *)
Theorem undecodable_header_escapes {A : Type}
    (env : Env) (permission token : string) (f : pyval -> M A) (e : lib_exn) :
  jwt_get_unverified_header env token = inl e ->
  verify_decode_jwt env token = ([], Exc (Lib e))
  /\ status_of (Lib e) = None
  /\ (get_token_auth_header env = ret token ->
      requires_auth permission f env = ([], Exc (Lib e))).
Proof.
  intros Hh.
  assert (V : verify_decode_jwt env token = ([], Exc (Lib e))).
  { unfold verify_decode_jwt, verify_decode_jwt_body. now rewrite Hh. }
  split; [exact V|]. split; [reflexivity|].
  intros Ht. exact (requires_auth_verify_raises env permission token f _ _ Ht V).
Qed.

Lemma undecodable_header_escapes_witness :
  requires_auth "get:drinks-detail" echo_handler env_malformed_token
  = ([], Exc (Lib JWTError)).
Proof.
  apply (undecodable_header_escapes env_malformed_token "get:drinks-detail"
           "tok" echo_handler JWTError);
    reflexivity.
Defined.

(** X11: a call sends its request for the key set exactly when the
    token's header is decoded and holds [kid]; it then sends that one
    request and nothing else, and sends nothing in the other case. *)
Theorem fetch_iff_header_names_key (env : Env) (token : string) :
  (events (verify_decode_jwt env token) = [Urlopen jwks_url]
   <-> exists h, jwt_get_unverified_header env token = inr h
                 /\ py_contains "kid" h = inr true)
  /\ (events (verify_decode_jwt env token) = []
      \/ events (verify_decode_jwt env token) = [Urlopen jwks_url]).
Proof.
  split; [|apply verify_events].
  split.
  - unfold verify_decode_jwt, verify_decode_jwt_body.
    destruct (jwt_get_unverified_header env token) as [e|h]; [discriminate|].
    run. destruct (py_contains "kid" h) as [e|[]] eqn:Ek;
      [discriminate| |discriminate].
    intros _. now exists h.
  - intros (h & Hh & Hk).
    destruct (verify_events env token) as [E|E]; [|exact E].
    unfold verify_decode_jwt in E.
    rewrite (verify_body_after_header env token h Hh Hk) in E.
    rewrite (proj1 (call_after_emit _ _)) in E. discriminate E.
Qed.

Lemma fetch_iff_header_names_key_witness :
  events (verify_decode_jwt env_unknown_kid "tok") = [Urlopen jwks_url].
Proof.
  apply (proj1 (fetch_iff_header_names_key env_unknown_kid "tok")).
  exists (sample_header 1 "key9"). split; reflexivity.
Defined.

(** X12: once a key is selected, whatever [jwt.decode] raises ends the
    call as an [AuthError] of status 401: the claims error for
    [JWTClaimsError], the expired error for [ExpiredSignatureError], and
    the header error for every other exception, a wrong signature
    included.  No exception of [jwt.decode] leaves the call as it is. *)
Theorem decode_failure_is_401
    (env : Env) (token : string) (h jwts keys : pyval) (items : list item)
    (jwts_key : gmap string pyval) (e : lib_exn) :
  jwt_get_unverified_header env token = inr h ->
  py_contains "kid" h = inr true ->
  key_set_fetch env = inr jwts ->
  py_getitem jwts "keys" = inr keys ->
  py_iter keys = inr items ->
  select_key h items ∅ = ret jwts_key ->
  truthy jwts_key = true ->
  jwt_decode env token jwts_key ALGORITHMS API_AUDIENCE issuer = inl e ->
  let err := match e with
             | ExpiredSignatureError => err_expired
             | JWTClaimsError => err_claims
             | _ => err_invalid_header
             end in
  verify_decode_jwt env token = ([Urlopen jwks_url], Exc err)
  /\ status_of err = Some 401%Z.
Proof.
  intros Hh Hk Hf Hkeys Hit Hsel Htr Hd err.
  rewrite (verify_key_selected env token h jwts keys items jwts_key
             Hh Hk Hf Hkeys Hit Hsel Htr).
  rewrite decode_try_cases, Hd. subst err.
  destruct e; split; reflexivity.
Qed.

Lemma decode_failure_is_401_witness :
  verify_decode_jwt env_bad_signature "tok"
    = ([Urlopen jwks_url], Exc err_invalid_header)
  /\ verify_decode_jwt env_bad_audience "tok"
    = ([Urlopen jwks_url], Exc err_claims).
Proof.
  split.
  - apply (decode_failure_is_401 env_bad_signature "tok"
             (sample_header 1 "key1") (sample_jwks [sample_jwk 20 4 "key1"])
             (PList 101 [sample_jwk 20 4 "key1"]) [Elem (sample_jwk 20 4 "key1")]
             {[ "kid" := PStr 4 "key1"; "kty" := PStr 21 "RSA";
                "use" := PStr 22 "sig";
                "n" := PStr 23 "sXchDaQebHnPiGvyDOAT4saGEUetSyo";
                "e" := PStr 24 "AQAB" ]} JWTError);
      reflexivity.
  - apply (decode_failure_is_401 env_bad_audience "tok"
             (sample_header 1 "key1") (sample_jwks [sample_jwk 20 4 "key1"])
             (PList 101 [sample_jwk 20 4 "key1"]) [Elem (sample_jwk 20 4 "key1")]
             {[ "kid" := PStr 4 "key1"; "kty" := PStr 21 "RSA";
                "use" := PStr 22 "sig";
                "n" := PStr 23 "sXchDaQebHnPiGvyDOAT4saGEUetSyo";
                "e" := PStr 24 "AQAB" ]} JWTClaimsError);
      reflexivity.
Defined.

(** X13: once a key is selected, the token is decoded with the algorithm
    [RS256], the audience [coffee_shop] and the issuer
    [https://ask-auth.us.auth0.com/], and the payload that [jwt.decode]
    returns is returned as it is, after the one request for the key set. *)
Theorem decoded_payload_returned_unchanged
    (env : Env) (token : string) (h jwts keys : pyval) (items : list item)
    (jwts_key : gmap string pyval) (payload : pyval) :
  jwt_get_unverified_header env token = inr h ->
  py_contains "kid" h = inr true ->
  key_set_fetch env = inr jwts ->
  py_getitem jwts "keys" = inr keys ->
  py_iter keys = inr items ->
  select_key h items ∅ = ret jwts_key ->
  truthy jwts_key = true ->
  jwt_decode env token jwts_key ["RS256"] "coffee_shop"
    "https://ask-auth.us.auth0.com/" = inr payload ->
  verify_decode_jwt env token = ([Urlopen jwks_url], Ret payload).
Proof.
  intros Hh Hk Hf Hkeys Hit Hsel Htr Hd.
  rewrite (verify_key_selected env token h jwts keys items jwts_key
             Hh Hk Hf Hkeys Hit Hsel Htr).
  rewrite decode_try_cases.
  change (jwt_decode env token jwts_key ALGORITHMS API_AUDIENCE issuer)
    with (jwt_decode env token jwts_key ["RS256"] "coffee_shop"
            "https://ask-auth.us.auth0.com/").
  now rewrite Hd.
Qed.

Lemma decoded_payload_returned_unchanged_witness :
  verify_decode_jwt env_same_object "tok" = ([Urlopen jwks_url], Ret sample_payload).
Proof.
  apply (decoded_payload_returned_unchanged env_same_object "tok"
           (sample_header 1 "key1")
           (sample_jwks [sample_jwk 10 16 "key2"; sample_jwk 20 4 "key1"])
           (PList 101 [sample_jwk 10 16 "key2"; sample_jwk 20 4 "key1"])
           [Elem (sample_jwk 10 16 "key2"); Elem (sample_jwk 20 4 "key1")]
           {[ "kid" := PStr 4 "key1"; "kty" := PStr 21 "RSA";
              "use" := PStr 22 "sig";
              "n" := PStr 23 "sXchDaQebHnPiGvyDOAT4saGEUetSyo";
              "e" := PStr 24 "AQAB" ]});
    reflexivity.
Defined.

(** ** Key selection *)

Lemma select_key_app (h : pyval) (a b : list item) (k : gmap string pyval) :
  select_key h (a ++ b) k
  = (let* k' := select_key h a k in select_key h b k').
Proof.
  revert k. induction a as [|key a IH]; intros k; simpl.
  - destruct (select_key_lift h b k) as [[e|k'] ->]; reflexivity.
  - destruct (select_step_lift h key k) as [[e|k1] ->]; run; [reflexivity|].
    rewrite IH.
    destruct (select_key_lift h a k1) as [[e|k2] ->]; run; [reflexivity|].
    destruct (select_key_lift h b k2) as [[e|k3] ->]; reflexivity.
Qed.

(** X14: when several entries of the key set hold the header's [kid]
    object, the last of them is the key handed to [jwt.decode], with its
    five fields and no other; what an earlier entry had set is lost. *)
Theorem last_identical_entry_wins
    (h hkid : pyval) (before after : list item) (key : item)
    (kkid kty use n e : pyval) (earlier : gmap string pyval) :
  py_getitem h "kid" = inr hkid ->
  select_key h before ∅ = ret earlier ->
  item_getitem key "kid" = inr kkid ->
  item_getitem key "kty" = inr kty ->
  item_getitem key "use" = inr use ->
  item_getitem key "n" = inr n ->
  item_getitem key "e" = inr e ->
  py_is hkid kkid = true ->
  Forall (other_object hkid) after ->
  select_key h (before ++ key :: after) ∅
  = ret {[ "kid" := kkid; "kty" := kty; "use" := use; "n" := n; "e" := e ]}.
Proof.
  intros Hh Hb Hkid Hkty Huse Hn He Hi Ha.
  rewrite select_key_app, Hb. run. simpl select_key.
  rewrite (select_step_same_object h hkid Hh key kkid kty use n e earlier
             Hkid Hkty Huse Hn He Hi).
  run. rewrite (select_key_other_objects h hkid Hh after _ Ha). reflexivity.
Qed.

Lemma last_identical_entry_wins_witness :
  select_key (sample_header 1 "key1")
    ([Elem (sample_jwk 20 4 "key1")] ++ Elem second_jwk :: [Elem (sample_jwk 10 16 "key2")])
    ∅
  = ret {[ "kid" := PStr 4 "key1"; "kty" := PStr 31 "RSA"; "use" := PStr 32 "sig";
           "n" := PStr 33 "another-modulus"; "e" := PStr 34 "AQAB" ]}.
Proof.
  apply (last_identical_entry_wins (sample_header 1 "key1") (PStr 4 "key1")
           [Elem (sample_jwk 20 4 "key1")] [Elem (sample_jwk 10 16 "key2")]
           (Elem second_jwk) (PStr 4 "key1") (PStr 31 "RSA") (PStr 32 "sig")
           (PStr 33 "another-modulus") (PStr 34 "AQAB")
           {[ "kid" := PStr 4 "key1"; "kty" := PStr 21 "RSA";
              "use" := PStr 22 "sig";
              "n" := PStr 23 "sXchDaQebHnPiGvyDOAT4saGEUetSyo";
              "e" := PStr 24 "AQAB" ]});
    try reflexivity.
  repeat constructor. exists (PStr 16 "key2"). split; reflexivity.
Defined.

Section KeySetEntry.

Variables (env : Env) (token : string) (h hkid jwts : pyval).
Variables (o o' : objid) (before after : list pyval) (d earlier : gmap string pyval).
Hypothesis Hheader : jwt_get_unverified_header env token = inr h.
Hypothesis Hkid : py_contains "kid" h = inr true.
Hypothesis Hh : py_getitem h "kid" = inr hkid.
Hypothesis Hfetch : key_set_fetch env = inr jwts.
Hypothesis Hkeys :
  py_getitem jwts "keys" = inr (PList o (before ++ PDict o' d :: after)).
Hypothesis Hbefore : select_key h (map Elem before) ∅ = ret earlier.

(** The call ends as the loop body does on the entry [d], when that
    raises. *)
Lemma verify_entry_raises (e : lib_exn) :
  select_step h (Elem (PDict o' d)) earlier = raise (Lib e) ->
  verify_decode_jwt env token = ([Urlopen jwks_url], Exc (Lib e)).
Proof.
  intros Hs. unfold verify_decode_jwt.
  rewrite (verify_body_after_header env token h Hheader Hkid), Hfetch.
  unfold after_fetch. run. rewrite Hkeys. run. simpl py_iter. run.
  rewrite map_app, select_key_app, Hbefore. run.
  simpl map. simpl select_key. rewrite Hs. reflexivity.
Qed.

Lemma select_step_without_kid :
  d !! "kid" = None ->
  select_step h (Elem (PDict o' d)) earlier = raise (Lib (KeyError "kid")).
Proof.
  intros Hd. unfold select_step. rewrite Hh. simpl. now rewrite Hd.
Qed.

Lemma select_step_missing_field (kkid : pyval) (missing : string) :
  d !! "kid" = Some kkid ->
  py_is hkid kkid = true ->
  first_missing d = Some missing ->
  select_step h (Elem (PDict o' d)) earlier = raise (Lib (KeyError missing)).
Proof.
  intros Hd Hi Hm. unfold select_step. rewrite Hh. simpl item_getitem.
  simpl py_getitem. rewrite Hd. run. rewrite Hi.
  unfold first_missing in Hm. simpl in Hm.
  destruct (d !! "kty") as [kty|] eqn:E1; simpl in Hm;
    [|injection Hm as <-; reflexivity].
  destruct (d !! "use") as [use|] eqn:E2; simpl in Hm;
    [|injection Hm as <-; reflexivity].
  destruct (d !! "n") as [n|] eqn:E3; simpl in Hm;
    [|injection Hm as <-; reflexivity].
  destruct (d !! "e") as [e|] eqn:E4; simpl in Hm;
    [discriminate | injection Hm as <-; reflexivity].
Qed.

End KeySetEntry.

(** X15: one entry of the key set without [kid] fails the whole call with
    [KeyError], which leaves the call as it is, also when an entry before
    it holds the token's key. *)
Theorem entry_without_kid_fails_call
    (env : Env) (token : string) (h hkid jwts : pyval) (o o' : objid)
    (before after : list pyval) (d earlier : gmap string pyval) :
  jwt_get_unverified_header env token = inr h ->
  py_contains "kid" h = inr true ->
  py_getitem h "kid" = inr hkid ->
  key_set_fetch env = inr jwts ->
  py_getitem jwts "keys" = inr (PList o (before ++ PDict o' d :: after)) ->
  select_key h (map Elem before) ∅ = ret earlier ->
  d !! "kid" = None ->
  verify_decode_jwt env token = ([Urlopen jwks_url], Exc (Lib (KeyError "kid"))).
Proof.
  intros Hh Hk Hhk Hf Hkeys Hb Hd.
  apply (verify_entry_raises env token h jwts o o' before after d earlier
           Hh Hk Hf Hkeys Hb).
  exact (select_step_without_kid h hkid o' d earlier Hhk Hd).
Qed.

Lemma entry_without_kid_fails_call_witness :
  verify_decode_jwt env_entry_without_kid "tok"
  = ([Urlopen jwks_url], Exc (Lib (KeyError "kid"))).
Proof.
  apply (entry_without_kid_fails_call env_entry_without_kid "tok"
           (sample_header 1 "key1") (PStr 4 "key1")
           (sample_jwks [sample_jwk 20 4 "key1"; jwk_without_kid 40])
           101%N 40%N [sample_jwk 20 4 "key1"] []
           {[ "kty" := PStr 41 "RSA"; "use" := PStr 42 "sig";
              "n" := PStr 43 "sXchDaQebHnPiGvyDOAT4saGEUetSyo";
              "e" := PStr 44 "AQAB" ]}
           {[ "kid" := PStr 4 "key1"; "kty" := PStr 21 "RSA";
              "use" := PStr 22 "sig";
              "n" := PStr 23 "sXchDaQebHnPiGvyDOAT4saGEUetSyo";
              "e" := PStr 24 "AQAB" ]});
    reflexivity.
Defined.

(** X16: an entry that holds the header's [kid] object but lacks one of
    [kty], [use], [n], [e] fails the call with the [KeyError] of the first
    of these it lacks; the error is no [AuthError] and the token is not
    decoded. *)
Theorem selected_entry_missing_field_fails_call
    (env : Env) (token : string) (h hkid jwts kkid : pyval) (o o' : objid)
    (before after : list pyval) (d earlier : gmap string pyval)
    (missing : string) :
  jwt_get_unverified_header env token = inr h ->
  py_contains "kid" h = inr true ->
  py_getitem h "kid" = inr hkid ->
  key_set_fetch env = inr jwts ->
  py_getitem jwts "keys" = inr (PList o (before ++ PDict o' d :: after)) ->
  select_key h (map Elem before) ∅ = ret earlier ->
  d !! "kid" = Some kkid ->
  py_is hkid kkid = true ->
  first_missing d = Some missing ->
  verify_decode_jwt env token = ([Urlopen jwks_url], Exc (Lib (KeyError missing)))
  /\ d !! missing = None.
Proof.
  intros Hh Hk Hhk Hf Hkeys Hb Hd Hi Hm. split.
  - apply (verify_entry_raises env token h jwts o o' before after d earlier
             Hh Hk Hf Hkeys Hb).
    exact (select_step_missing_field h hkid o' d earlier Hhk kkid missing Hd Hi Hm).
  - unfold first_missing in Hm. apply find_some in Hm as [_ Hm].
    now apply bool_decide_eq_true in Hm.
Qed.

Lemma selected_entry_missing_field_fails_call_witness :
  verify_decode_jwt env_entry_without_use "tok"
  = ([Urlopen jwks_url], Exc (Lib (KeyError "use"))).
Proof.
  apply (selected_entry_missing_field_fails_call env_entry_without_use "tok"
           (sample_header 1 "key1") (PStr 4 "key1")
           (sample_jwks [jwk_without_use 20 4 "key1"]) (PStr 4 "key1")
           101%N 20%N [] []
           {[ "kid" := PStr 4 "key1"; "kty" := PStr 21 "RSA";
              "n" := PStr 23 "sXchDaQebHnPiGvyDOAT4saGEUetSyo";
              "e" := PStr 24 "AQAB" ]} ∅ "use");
    reflexivity.
Defined.

(** ** The wrapper *)

Lemma extraction_cases (env : Env) :
  (exists token, get_token_auth_header env = ret token)
  \/ get_token_auth_header env = raise err_missing_header
  \/ get_token_auth_header env = raise err_two_parts
  \/ get_token_auth_header env = raise err_no_bearer.
Proof.
  unfold get_token_auth_header.
  destruct (headers_get (request_headers env) "Authorization") as [auth|]; auto.
  cbv zeta. destruct (negb (length (split " " auth) =? 2))%nat; auto.
  destruct (negb (String.eqb (lower (nth 0 (split " " auth) "")) "bearer")); eauto.
Qed.

(** What [verify_decode_jwt] raises is one of its four errors or a
    library exception. *)
Lemma verify_raises_cases (env : Env) (token : string) (e : exn) :
  result (verify_decode_jwt env token) = Exc e ->
  e = err_no_kid \/ e = err_expired \/ e = err_claims \/ e = err_invalid_header
  \/ exists le, e = Lib le.
Proof.
  intros H.
  destruct (verify_result_cases env token)
    as [(k & p & _ & R)|[[R|[R|R]]|[R|[R|[le R]]]]];
    rewrite R in H; try discriminate H; injection H as <-; eauto 6.
Qed.

(** X17: an [AuthError] raised by [verify_decode_jwt] has status 401 and
    is one of four: no key in the header, expired token, invalid claims,
    token that cannot be parsed. *)
Theorem verify_auth_errors_are_401
    (env : Env) (token : string) (error : gmap string string) (code : Z) :
  result (verify_decode_jwt env token) = Exc (AuthError error code) ->
  code = 401%Z
  /\ (AuthError error code = err_no_kid \/ AuthError error code = err_expired
      \/ AuthError error code = err_claims
      \/ AuthError error code = err_invalid_header).
Proof.
  intros H.
  destruct (verify_raises_cases env token _ H) as [E|[E|[E|[E|[le E]]]]];
    try discriminate E; split; auto; now injection E.
Qed.

Lemma verify_auth_errors_are_401_witness :
  401%Z = 401%Z
  /\ (err_expired = err_no_kid \/ err_expired = err_expired
      \/ err_expired = err_claims \/ err_expired = err_invalid_header).
Proof.
  apply (verify_auth_errors_are_401 env_expired_same_object "tok"
           {[ "error" := "Expiered token"; "description" := "Token is expiered" ]}
           401%Z).
  reflexivity.
Defined.

(** The wrapper either ends before the handler, with an error of a stage
    or a library exception, or calls the handler with the verified
    payload. *)
Lemma requires_auth_ends (permission : string) (env : Env) :
  (exists tr e, denied permission env tr e
                /\ (In e stage_errors \/ exists le, e = Lib le))
  \/ (exists token tr payload,
        get_token_auth_header env = ret token
        /\ verify_decode_jwt env token = (tr, Ret payload)
        /\ check_permissions permission payload = ret (PBool true)
        /\ authorized permission env tr payload).
Proof.
  destruct (extraction_cases env) as [[token Ht]|[Ht|[Ht|Ht]]].
  2: { left. exists [], err_missing_header. split.
       - intros A f. unfold requires_auth. now rewrite Ht.
       - left. simpl. auto 10. }
  2: { left. exists [], err_two_parts. split.
       - intros A f. unfold requires_auth. now rewrite Ht.
       - left. simpl. auto 10. }
  2: { left. exists [], err_no_bearer. split.
       - intros A f. unfold requires_auth. now rewrite Ht.
       - left. simpl. auto 10. }
  destruct (verify_decode_jwt env token) as [tr [payload|e]] eqn:V.
  - destruct (check_permissions_cases permission payload) as [Hc|[Hc|[Hc|Hc]]].
    + right. exists token, tr, payload.
      split; [exact Ht|]. split; [exact V|]. split; [exact Hc|].
      intros A f. unfold requires_auth, call_handler. rewrite Ht. run.
      rewrite V. run. rewrite Hc. run.
      destruct (f payload) as [tr' r]. simpl. now rewrite ?app_nil_r.
    + left. exists tr, err_permissions_absent. split.
      * intros A f. unfold requires_auth. rewrite Ht. run. rewrite V. run.
        rewrite Hc. simpl. now rewrite app_nil_r.
      * left. simpl. auto 10.
    + left. exists tr, err_permission_denied. split.
      * intros A f. unfold requires_auth. rewrite Ht. run. rewrite V. run.
        rewrite Hc. simpl. now rewrite app_nil_r.
      * left. simpl. auto 10.
    + left. exists tr, (Lib TypeError). split.
      * intros A f. unfold requires_auth. rewrite Ht. run. rewrite V. run.
        rewrite Hc. simpl. now rewrite app_nil_r.
      * right. eauto.
  - left. exists tr, e. split.
    + intros A f. exact (requires_auth_verify_raises env permission token f _ _ Ht V).
    + assert (R : result (verify_decode_jwt env token) = Exc e) by now rewrite V.
      destruct (verify_raises_cases env token e R) as [E|[E|[E|[E|E]]]];
        subst; simpl; auto 10.
Qed.

(** X18: the wrapper has two ends.  Either it ends with an exception
    before the handler, the same for every handler; or extraction,
    verification and permission check all succeed, and then the handler is
    called once, after the events of verification, with the very payload
    that [verify_decode_jwt] returned, and the wrapper ends as the handler
    does. *)
Theorem handler_runs_iff_all_stages_pass (permission : string) (env : Env) :
  (exists tr e, denied permission env tr e)
  \/ (exists token tr payload,
        get_token_auth_header env = ret token
        /\ verify_decode_jwt env token = (tr, Ret payload)
        /\ check_permissions permission payload = ret (PBool true)
        /\ authorized permission env tr payload).
Proof.
  destruct (requires_auth_ends permission env) as [(tr & e & H & _)|H].
  - left. now exists tr, e.
  - now right.
Qed.

(** X19: every [AuthError] with which the wrapper ends before a handler
    that raises nothing has a description and status 400, 401 or 403; the
    [auth_error] handler of the application answers it with that status
    and a body of [success] false, the status and the description, and
    does not fail on the lookup of the description. *)
Theorem auth_error_answers_stage_errors {A : Type}
    (env : Env) (permission : string) (f : pyval -> M A)
    (error : gmap string string) (code : Z) :
  handler_returns f ->
  result (requires_auth permission f env) = Exc (AuthError error code) ->
  In (AuthError error code) stage_errors
  /\ (code = 400%Z \/ code = 401%Z \/ code = 403%Z)
  /\ exists description,
       error !! "description" = Some description
       /\ auth_error error code
          = inr ({| body_success := false; body_error := code;
                    body_message := description |}, code).
Proof.
  intros Hf H.
  assert (S : In (AuthError error code) stage_errors).
  { destruct (requires_auth_ends permission env)
      as [(tr & e & D & [S|[le ->]])|(token & tr & payload & _ & _ & _ & Au)].
    - rewrite (D A f) in H. now injection H as <-.
    - rewrite (D A f) in H. discriminate H.
    - destruct (Au A f) as [_ R]. rewrite R in H.
      destruct (Hf payload) as [a Ha]. rewrite Ha in H. discriminate H. }
  split; [exact S|].
  simpl in S.
  repeat (destruct S as [S|S];
          [injection S as <- <-; split; [auto|eexists; split; reflexivity]|]).
  destruct S.
Qed.

Lemma auth_error_answers_stage_errors_witness :
  exists description,
    ({[ "message" := "Authorization header is missing.";
        "description" := "Expected authorization header." ]} : gmap string string)
      !! "description" = Some description
    /\ auth_error {[ "message" := "Authorization header is missing.";
                     "description" := "Expected authorization header." ]} 401
       = inr ({| body_success := false; body_error := 401;
                 body_message := description |}, 401%Z).
Proof.
  apply (auth_error_answers_stage_errors env_no_header "get:drinks-detail"
           echo_handler _ 401%Z).
  - intros payload. now exists payload.
  - reflexivity.
Defined.

(** X20: with a payload whose [permissions] is a list, the wrapper is
    decided by the list.  When a str of the required value is in it, the
    handler is called once with the payload, after the events of
    verification, and the wrapper ends as the handler does; when none is,
    the wrapper ends with the permission error of status 403 and the
    handler is not called. *)
Theorem wrapper_decided_by_permissions {A : Type}
    (env : Env) (permission token : string) (f : pyval -> M A)
    (tr : list event) (o i : objid) (d : gmap string pyval) (l : list pyval) :
  get_token_auth_header env = ret token ->
  verify_decode_jwt env token = (tr, Ret (PDict o d)) ->
  d !! "permissions" = Some (PList i l) ->
  ((exists j, PStr j permission ∈ l) ->
   events (requires_auth permission f env)
     = tr ++ CallHandler (PDict o d) :: events (f (PDict o d))
   /\ result (requires_auth permission f env) = result (f (PDict o d)))
  /\ ((forall j, PStr j permission ∉ l) ->
      requires_auth permission f env = (tr, Exc err_permission_denied)).
Proof.
  intros Ht V Hd.
  pose proof (check_permissions_list permission o d i l Hd) as Hc.
  split.
  - intros Hin. apply list_contains_spec in Hin. rewrite Hin in Hc.
    unfold requires_auth, call_handler. rewrite Ht. run. rewrite V. run.
    rewrite Hc. run. destruct (f (PDict o d)) as [tr' r]. simpl.
    now rewrite ?app_nil_r.
  - intros Hnot.
    destruct (existsb (str_eq permission) l) eqn:E.
    + apply list_contains_spec in E as [j Hj]. now destruct (Hnot j).
    + unfold requires_auth. rewrite Ht. run. rewrite V. run. rewrite Hc.
      simpl. now rewrite app_nil_r.
Qed.

Lemma wrapper_decided_by_permissions_witness :
  (events (requires_auth "post:drinks" echo_handler env_same_object)
     = [Urlopen jwks_url] ++ CallHandler sample_payload
         :: events (echo_handler sample_payload)
   /\ result (requires_auth "post:drinks" echo_handler env_same_object)
      = result (echo_handler sample_payload))
  /\ requires_auth "delete:drinks" echo_handler env_same_object
     = ([Urlopen jwks_url], Exc err_permission_denied).
Proof.
  split.
  - apply (proj1 (wrapper_decided_by_permissions env_same_object "post:drinks"
                    "tok" echo_handler [Urlopen jwks_url] 200%N 204%N _
                    [PStr 205 "get:drinks-detail"; PStr 206 "post:drinks"]
                    eq_refl eq_refl eq_refl)).
    exists 206%N. apply list_elem_of_In. simpl. auto.
  - apply (proj2 (wrapper_decided_by_permissions env_same_object "delete:drinks"
                    "tok" echo_handler [Urlopen jwks_url] 200%N 204%N _
                    [PStr 205 "get:drinks-detail"; PStr 206 "post:drinks"]
                    eq_refl eq_refl eq_refl)).
    intros j Hin. apply list_elem_of_In in Hin. simpl in Hin.
    destruct Hin as [Hin|[Hin|[]]]; discriminate Hin.
Defined.

(** X21: when no entry of the key set holds the very object of the
    header's [kid] (an empty key set included), [verify_decode_jwt] sends
    its request, never calls [jwt.decode], raises nothing and returns
    [None]; the wrapper then ends with [TypeError], raised by the
    permission check on [None], and the handler is not called. *)
Theorem no_identical_kid_returns_None {A : Type}
    (env : Env) (permission token : string) (f : pyval -> M A)
    (h hkid jwts : pyval) (o : objid) (keys : list pyval) :
  jwt_get_unverified_header env token = inr h ->
  py_contains "kid" h = inr true ->
  py_getitem h "kid" = inr hkid ->
  key_set_fetch env = inr jwts ->
  py_getitem jwts "keys" = inr (PList o keys) ->
  Forall (other_object hkid) (map Elem keys) ->
  verify_decode_jwt env token = ([Urlopen jwks_url], Ret PNone)
  /\ (get_token_auth_header env = ret token ->
      requires_auth permission f env = ([Urlopen jwks_url], Exc (Lib TypeError))).
Proof.
  intros Hh Hk Hhk Hf Hkeys Ho. split.
  - exact (verify_no_key_selected env token h hkid jwts o keys Hh Hk Hhk Hf Hkeys Ho).
  - exact (requires_auth_no_key_selected env token h hkid jwts o keys
             Hh Hk Hhk Hf Hkeys Ho permission f).
Qed.

Lemma no_identical_kid_returns_None_witness :
  verify_decode_jwt env_unknown_kid "tok" = ([Urlopen jwks_url], Ret PNone)
  /\ (get_token_auth_header env_unknown_kid = ret "tok" ->
      requires_auth "get:drinks-detail" echo_handler env_unknown_kid
      = ([Urlopen jwks_url], Exc (Lib TypeError))).
Proof.
  apply (no_identical_kid_returns_None env_unknown_kid "get:drinks-detail" "tok"
           echo_handler (sample_header 1 "key9") (PStr 4 "key9")
           (sample_jwks [sample_jwk 10 16 "key2"; sample_jwk 20 26 "key1"])
           101%N [sample_jwk 10 16 "key2"; sample_jwk 20 26 "key1"]);
    try reflexivity.
  repeat constructor.
  - exists (PStr 16 "key2"). split; reflexivity.
  - exists (PStr 26 "key1"). split; reflexivity.
Defined.

Lemma select_step_inv (h hkid : pyval) (key : item) (k0 k1 : gmap string pyval) :
  py_getitem h "kid" = inr hkid ->
  select_step h key k0 = ret k1 ->
  k1 = k0
  \/ exists kkid, item_getitem key "kid" = inr kkid
                  /\ py_is hkid kkid = true
                  /\ k1 !! "kid" = Some kkid.
Proof.
  intros Hh. unfold select_step. rewrite Hh.
  destruct (item_getitem key "kid") as [e|kkid]; [discriminate|]. run.
  destruct (py_is hkid kkid) eqn:Hi; [|intros [= <-]; now left].
  destruct (item_getitem key "kty") as [e|kty]; [discriminate|].
  destruct (item_getitem key "use") as [e|use]; [discriminate|].
  destruct (item_getitem key "n") as [e|n]; [discriminate|].
  destruct (item_getitem key "e") as [e|e']; [discriminate|].
  simpl. intros [= <-]. right. exists kkid.
  split; [reflexivity|]. split; [exact Hi|]. apply lookup_insert_eq.
Qed.

Lemma select_key_inv (h hkid : pyval) (keys : list item) (k0 k : gmap string pyval) :
  py_getitem h "kid" = inr hkid ->
  select_key h keys k0 = ret k ->
  k = k0
  \/ exists key kkid, In key keys
                      /\ item_getitem key "kid" = inr kkid
                      /\ py_is hkid kkid = true
                      /\ k !! "kid" = Some kkid.
Proof.
  intros Hh. revert k0. induction keys as [|key rest IH]; intros k0; simpl.
  - intros [= <-]. now left.
  - destruct (select_step_lift h key k0) as [[e|k1] E]; rewrite E; simpl;
      [discriminate|].
    destruct (select_key_lift h rest k1) as [[e|k2] E2]; rewrite E2; simpl;
      [discriminate|].
    intros [= <-].
    destruct (IH k1 E2) as [->|(key' & kkid & Hin & Hk & Hi & Hl)].
    + destruct (select_step_inv h hkid key k0 k1 Hh E) as [->|(kkid & Hk & Hi & Hl)].
      * now left.
      * right. exists key, kkid. auto.
    + right. exists key', kkid. auto.
Qed.

(** X22: the key handed to [jwt.decode] always comes from an entry of the
    key set whose [kid] is the very object of the header's [kid]: when the
    loop ends with a key that is not empty, its [kid] is that object.  No
    entry with another [kid] object is ever selected. *)
Theorem selected_key_is_identical_object
    (h hkid : pyval) (keys : list item) (jwts_key : gmap string pyval) :
  py_getitem h "kid" = inr hkid ->
  select_key h keys ∅ = ret jwts_key ->
  truthy jwts_key = true ->
  exists key kkid, In key keys
                   /\ item_getitem key "kid" = inr kkid
                   /\ jwts_key !! "kid" = Some kkid
                   /\ py_is hkid kkid = true
                   /\ identity hkid = identity kkid.
Proof.
  intros Hh Hs Ht.
  destruct (select_key_inv h hkid keys ∅ jwts_key Hh Hs)
    as [->|(key & kkid & Hin & Hk & Hi & Hl)].
  - discriminate Ht.
  - exists key, kkid. repeat split; try assumption.
    now apply py_is_identity.
Qed.

Lemma selected_key_is_identical_object_witness :
  exists key kkid,
    In key [Elem (sample_jwk 10 16 "key2"); Elem (sample_jwk 20 4 "key1")]
    /\ item_getitem key "kid" = inr kkid
    /\ ({[ "kid" := PStr 4 "key1"; "kty" := PStr 21 "RSA"; "use" := PStr 22 "sig";
           "n" := PStr 23 "sXchDaQebHnPiGvyDOAT4saGEUetSyo";
           "e" := PStr 24 "AQAB" ]} : gmap string pyval) !! "kid" = Some kkid
    /\ py_is (PStr 4 "key1") kkid = true
    /\ identity (PStr 4 "key1") = identity kkid.
Proof.
  apply (selected_key_is_identical_object (sample_header 1 "key1") (PStr 4 "key1")
           [Elem (sample_jwk 10 16 "key2"); Elem (sample_jwk 20 4 "key1")]);
    reflexivity.
Defined.

(** X23: when the fetched document is a JSON object without [keys], the
    call ends with [KeyError], which is no [AuthError], after its one
    request; the token is not decoded. *)
Theorem key_set_without_keys_raises
    (env : Env) (token : string) (h : pyval) (o : objid) (d : gmap string pyval) :
  jwt_get_unverified_header env token = inr h ->
  py_contains "kid" h = inr true ->
  key_set_fetch env = inr (PDict o d) ->
  d !! "keys" = None ->
  verify_decode_jwt env token = ([Urlopen jwks_url], Exc (Lib (KeyError "keys"))).
Proof.
  intros Hh Hk Hf Hd. unfold verify_decode_jwt.
  rewrite (verify_body_after_header env token h Hh Hk), Hf.
  unfold after_fetch. run. simpl py_getitem. now rewrite Hd.
Qed.

Lemma key_set_without_keys_raises_witness :
  verify_decode_jwt env_jwks_without_keys "tok"
  = ([Urlopen jwks_url], Exc (Lib (KeyError "keys"))).
Proof.
  apply (key_set_without_keys_raises env_jwks_without_keys "tok"
           (sample_header 1 "key1") 100%N {[ "message" := PStr 101 "Not Found" ]});
    reflexivity.
Defined.
